(** * Engagement metrics for the forum mock data

    A shallow embedding of [scripts/apply-engagement-metrics.py]: the script
    loads five JSON collections, computes a view count for every thread and
    endorsement counts for every AI answer, and writes three of the
    collections back.

    Python's [float] is IEEE-754 binary64; it is modelled bit-exactly by the
    [spec_float] operations of the standard library at precision 53 and
    maximal exponent 1024.  Python's [int] is [Z].  Exceptions are values of
    [exn]; the process-wide generator of the [random] module is a state
    threaded through every function that draws from it. *)

From Stdlib Require Import ZArith Lia Bool List Floats.
From stdpp Require Import gmap strings list.

Open Scope Z_scope.

(** ** Exceptions *)

Inductive exn : Type :=
  | KeyError
  | StopIteration
  | OverflowError
  | ValueError
  | ZeroDivisionError
  | LoadError.  (* a file of the mock directory cannot be loaded *)

Definition result (A : Type) : Type := (exn + A)%type.

Definition ok {A : Type} (a : A) : result A := inr a.
Definition raise {A : Type} (e : exn) : result A := inl e.

Definition rbind {A B : Type} (m : result A) (k : A -> result B) : result B :=
  match m with
  | inl e => inl e
  | inr a => k a
  end.

Notation "'let?' x ':=' m 'in' k" := (rbind m (fun x => k))
  (at level 10, x name, m at level 100, k at level 200, only parsing).

(** ** Python floats *)

Module PyFloat.

Abbreviation pyfloat := spec_float.

Definition fadd : pyfloat -> pyfloat -> pyfloat := SFadd 53 1024.
Definition fsub : pyfloat -> pyfloat -> pyfloat := SFsub 53 1024.
Definition fmul : pyfloat -> pyfloat -> pyfloat := SFmul 53 1024.
Definition fdiv : pyfloat -> pyfloat -> pyfloat := SFdiv 53 1024.
Definition flt : pyfloat -> pyfloat -> bool := SFltb.
Definition fle : pyfloat -> pyfloat -> bool := SFleb.

(** The float literals of the script, each the binary64 value nearest to
    the decimal as Python reads it. *)
#[warnings="-inexact-float"] Definition f0_0 : pyfloat := Eval vm_compute in Prim2SF 0.0.
#[warnings="-inexact-float"] Definition f0_2 : pyfloat := Eval vm_compute in Prim2SF 0.2.
#[warnings="-inexact-float"] Definition f0_25 : pyfloat := Eval vm_compute in Prim2SF 0.25.
#[warnings="-inexact-float"] Definition f0_3 : pyfloat := Eval vm_compute in Prim2SF 0.3.
#[warnings="-inexact-float"] Definition f0_4 : pyfloat := Eval vm_compute in Prim2SF 0.4.
#[warnings="-inexact-float"] Definition f0_5 : pyfloat := Eval vm_compute in Prim2SF 0.5.
#[warnings="-inexact-float"] Definition f0_6 : pyfloat := Eval vm_compute in Prim2SF 0.6.
#[warnings="-inexact-float"] Definition f0_8 : pyfloat := Eval vm_compute in Prim2SF 0.8.
#[warnings="-inexact-float"] Definition f1_0 : pyfloat := Eval vm_compute in Prim2SF 1.0.
#[warnings="-inexact-float"] Definition f1_3 : pyfloat := Eval vm_compute in Prim2SF 1.3.
#[warnings="-inexact-float"] Definition f2_25 : pyfloat := Eval vm_compute in Prim2SF 2.25.
#[warnings="-inexact-float"] Definition f2_5 : pyfloat := Eval vm_compute in Prim2SF 2.5.

(** An integer as an exact (not yet rounded) binary number. *)
Definition exact_of_int (z : Z) : pyfloat :=
  match z with
  | Z0 => S754_zero false
  | Zpos p => S754_finite false p 0
  | Zneg p => S754_finite true p 0
  end.

(** Arithmetic that leaves the finite range raises [OverflowError] where
    it starts from integers. *)
Definition finite_or_overflow (x : pyfloat) : result pyfloat :=
  match x with
  | S754_infinity _ | S754_nan => raise OverflowError
  | _ => ok x
  end.

(** [float(z)], also the implicit conversion of an [int] operand in mixed
    arithmetic: round to nearest even. *)
Definition of_int (z : Z) : result pyfloat :=
  finite_or_overflow (binary_normalize 53 1024 z 0 false).

(** [a / b] on two [int]s: the correctly rounded quotient. *)
Definition true_div (a b : Z) : result pyfloat :=
  if b =? 0 then raise ZeroDivisionError
  else finite_or_overflow (fdiv (exact_of_int a) (exact_of_int b)).

(** [z * x] and [z + x] with an [int] on the left. *)
Definition int_mul (z : Z) (x : pyfloat) : result pyfloat :=
  let? y := of_int z in ok (fmul y x).

Definition int_add (z : Z) (x : pyfloat) : result pyfloat :=
  let? y := of_int z in ok (fadd y x).

(** The integer [m * 2^e] rounded by [rnd], where [rnd] is a division. *)
Definition scale (rnd : Z -> Z -> Z) (m e : Z) : Z :=
  match e with
  | Zneg p => rnd m (Z.pow_pos 2 p)
  | _ => m * 2 ^ e
  end.

Definition signed (s : bool) (m : positive) : Z :=
  if s then Zneg m else Zpos m.

(** [int(x)]: truncation toward zero; [ValueError] on NaN and
    [OverflowError] on an infinity. *)
Definition int_of_float (x : pyfloat) : result Z :=
  match x with
  | S754_zero _ => ok 0
  | S754_finite s m e => ok (scale Z.quot (signed s m) e)
  | S754_infinity _ => raise OverflowError
  | S754_nan => raise ValueError
  end.

(** [math.floor(x)], the rounding the specification names. *)
Definition floor_of_float (x : pyfloat) : result Z :=
  match x with
  | S754_zero _ => ok 0
  | S754_finite s m e => ok (scale Z.div (signed s m) e)
  | S754_infinity _ => raise OverflowError
  | S754_nan => raise ValueError
  end.

(** The builtin [min(a, b)]: [b] only if [b < a]. *)
Definition fmin (a b : pyfloat) : pyfloat := if flt b a then b else a.

(** Not below zero: a zero of either sign, a NaN, or a value whose sign bit
    is clear. *)
Definition nonneg (x : pyfloat) : Prop :=
  match x with
  | S754_finite true _ _ | S754_infinity true => False
  | _ => True
  end.

End PyFloat.
Import PyFloat.

(** ** Naive datetimes and their difference *)

Module DateTime.

Record datetime : Type := mkDatetime {
  year : Z; month : Z; day : Z;
  hour : Z; minute : Z; second : Z; microsecond : Z
}.

Record timedelta : Type := mkTimedelta {
  days : Z; seconds : Z; microseconds : Z
}.

Definition is_leap (y : Z) : bool :=
  (y mod 4 =? 0) && (negb (y mod 100 =? 0) || (y mod 400 =? 0)).

Definition days_before_year (y : Z) : Z :=
  let y := y - 1 in y * 365 + y / 4 - y / 100 + y / 400.

Definition DAYS_BEFORE_MONTH : list Z :=
  [0; 31; 59; 90; 120; 151; 181; 212; 243; 273; 304; 334].

Definition days_before_month (y m : Z) : Z :=
  nth (Z.to_nat (m - 1)) DAYS_BEFORE_MONTH 0
  + (if (2 <? m) && is_leap y then 1 else 0).

Definition ymd2ord (y m d : Z) : Z :=
  days_before_year y + days_before_month y m + d.

Definition toordinal (t : datetime) : Z :=
  ymd2ord (year t) (month t) (day t).

(** [timedelta(days, seconds, microseconds)] on integers: carries leave
    [0 <= microseconds < 10^6] and [0 <= seconds < 86400]. *)
Definition new_timedelta (d s us : Z) : timedelta :=
  let s := s + us / 1000000 in
  {| days := d + s / 86400;
     seconds := s mod 86400;
     microseconds := us mod 1000000 |}.

Definition secs_of_day (t : datetime) : Z :=
  second t + minute t * 60 + hour t * 3600.

(** [a - b] on two naive datetimes. *)
Definition sub (a b : datetime) : timedelta :=
  new_timedelta (toordinal a - toordinal b)
                (secs_of_day a - secs_of_day b)
                (microsecond a - microsecond b).

(** Position on the time line, in microseconds since the start of
    0001-01-01, of a datetime the [datetime] constructor accepts. *)
Definition timestamp_us (t : datetime) : Z :=
  ((toordinal t - 1) * 86400 + secs_of_day t) * 1000000 + microsecond t.

Definition US_PER_DAY : Z := 86400 * 1000000.

End DateTime.
Import DateTime.

(** ** The [random] module

    The generator's algorithm is not part of the script.  Its state is an
    abstract type with the three entry points the library functions used
    here are built on: [random.seed(n)], [random.random()] and the internal
    [_randbelow(n)] behind [randrange] and [randint]. *)

Class RandomSource (G : Type) : Type := {
  seed : Z -> G;
  random : G -> pyfloat * G;
  randbelow : Z -> G -> Z * G
}.

(** The documented contract of [_randbelow]: a value in [0, n). *)
Class RandomContract (G : Type) `{RandomSource G} : Prop := {
  randbelow_range : forall (n : Z) (g : G), 0 < n -> 0 <= fst (randbelow n g) < n
}.

(** ** Computations that draw random numbers and may raise *)

Definition M (G A : Type) : Type := G -> result (A * G).

Definition ret {G A : Type} (a : A) : M G A := fun g => ok (a, g).

Definition bind {G A B : Type} (m : M G A) (k : A -> M G B) : M G B :=
  fun g =>
    match m g with
    | inl e => inl e
    | inr (a, g') => k a g'
    end.

Definition lift {G A : Type} (r : result A) : M G A :=
  fun g =>
    match r with
    | inl e => inl e
    | inr a => ok (a, g)
    end.

Definition draw {G A : Type} (f : G -> A * G) : M G A := fun g => ok (f g).

Notation "'let*' x ':=' m 'in' k" := (bind m (fun x => k))
  (at level 10, x name, m at level 100, k at level 200, only parsing).

(** A [for] loop that replaces every element of a list, in order. *)
Fixpoint for_each {G A B : Type} (f : A -> M G B) (l : list A) : M G (list B) :=
  match l with
  | [] => ret []
  | x :: l' =>
      let* y := f x in
      let* ys := for_each f l' in
      ret (y :: ys)
  end.

Definition lookup_or {A : Type} (e : exn) (o : option A) : result A :=
  match o with
  | Some a => ok a
  | None => raise e
  end.

(** ** The records of the five collections

    Fields are those the script reads or writes.  A field read with
    [.get] may be absent; the derived fields are absent until written.
    [createdAt] holds the naive datetime that
    [datetime.fromisoformat(s.replace('Z', '+00:00')).replace(tzinfo=None)]
    yields for the stored string: its wall-clock fields, the offset dropped. *)

Record Thread : Type := mkThread {
  thread_id : string;
  thread_courseId : string;
  thread_status : string;
  thread_createdAt : datetime;
  thread_hasAIAnswer : option bool;
  thread_views : option Z
}.

Record Post : Type := mkPost {
  post_id : string;
  post_threadId : string;
  post_authorId : string;
  post_endorsed : option bool
}.

Record User : Type := mkUser {
  user_id : string;
  user_role : string
}.

Record Course : Type := mkCourse {
  course_id : string;
  course_enrollmentCount : Z
}.

Record Citation : Type := mkCitation {
  citation_relevance : Z
}.

Record AIAnswer : Type := mkAIAnswer {
  ai_id : string;
  ai_threadId : string;
  ai_confidenceScore : Z;
  ai_citations : list Citation;
  ai_studentEndorsements : option Z;
  ai_instructorEndorsements : option Z;
  ai_instructorEndorsed : option bool;
  ai_totalEndorsements : option Z
}.

(** The lookups built after loading.  A dict comprehension keeps the last
    record of a key; [posts_by_thread] appends in file order. *)
Record Lookups : Type := mkLookups {
  courses_by_id : gmap string Course;
  posts_by_thread : gmap string (list Post);
  ai_by_thread : gmap string AIAnswer;
  users_by_id : gmap string User
}.

Definition index_by {A : Type} (key : A -> string) (l : list A) : gmap string A :=
  foldl (fun m a => <[key a := a]> m) ∅ l.

Definition group_posts (posts : list Post) : gmap string (list Post) :=
  foldl (fun m post =>
           let thread_id := post_threadId post in
           let m := match m !! thread_id with
                    | None => <[thread_id := []]> m
                    | Some _ => m
                    end in
           <[thread_id := default [] (m !! thread_id) ++ [post]]> m)
        ∅ posts.

Definition build_lookups (courses : list Course) (posts : list Post)
    (ai_answers : list AIAnswer) (users : list User) : Lookups :=
  {| courses_by_id := index_by course_id courses;
     posts_by_thread := group_posts posts;
     ai_by_thread := index_by ai_threadId ai_answers;
     users_by_id := index_by user_id users |}.

(** ** The functions of the script *)

Definition NOW : datetime := mkDatetime 2025 10 7 12 0 0 0.

Definition get_days_since_creation (created : datetime) : Z :=
  let delta := DateTime.sub NOW created in
  days delta.

Definition get_course_size_factor (enrollment : Z) : pyfloat :=
  if enrollment <? 35 then f0_8
  else if enrollment <=? 50 then f1_0
  else f1_3.

Definition truthy (b : option bool) : bool := default false b.

Definition has_instructor_reply (users : gmap string User)
    (thread_posts : list Post) : bool :=
  existsb (fun post =>
             match users !! post_authorId post with
             | Some author => String.eqb (user_role author) "instructor"
             | None => false
             end) thread_posts.

Definition calculate_quality_factor (lk : Lookups) (thread : Thread)
    (thread_posts : list Post) (ai_answer : option AIAnswer) : pyfloat :=
  let score := f0_0 in
  let score := if truthy (thread_hasAIAnswer thread)
               then fadd score f0_3 else score in
  let score := if 0 <? Z.of_nat (length thread_posts)
               then fadd score f0_2 else score in
  let score := if existsb (fun p => truthy (post_endorsed p)) thread_posts
               then fadd score f0_3 else score in
  let score := if has_instructor_reply (users_by_id lk) thread_posts
               then fadd score f0_2 else score in
  let score := if String.eqb (thread_status thread) "resolved"
               then fadd score f0_25 else score in
  fadd f1_0 score.

(** [min(1 + (days / 7) * 0.5, 2.5)] *)
Definition age_factor (days : Z) : result pyfloat :=
  let? weeks := true_div days 7 in
  let? grown := int_add 1 (fmul weeks f0_5) in
  ok (fmin grown f2_5).

Section Script.

Context {G : Type} `{RandomSource G}.

(** [random.randint(a, b)] is [randrange(a, b + 1)]. *)
Definition randint (a b : Z) : M G Z :=
  let* k := draw (randbelow (b - a + 1)) in
  ret (a + k).

(** [random.uniform(a, b)] is [a + (b - a) * random()]. *)
Definition uniform (a b : pyfloat) : M G pyfloat :=
  let* r := draw random in
  ret (fadd a (fmul (fsub b a) r)).

Definition uniform_int (a b : Z) : M G pyfloat :=
  let* r := draw random in
  lift (let? w := int_mul (b - a) r in int_add a w).

Definition get_base_views (status : string) : M G Z :=
  if String.eqb status "resolved" then randint 20 35
  else if String.eqb status "answered" then randint 15 25
  else randint 8 15.

Definition calculate_thread_views (lk : Lookups) (thread : Thread) : M G Z :=
  let days := get_days_since_creation (thread_createdAt thread) in
  let* course := lift (lookup_or KeyError
                         (courses_by_id lk !! thread_courseId thread)) in
  let thread_posts := default [] (posts_by_thread lk !! thread_id thread) in
  let ai_answer := ai_by_thread lk !! thread_id thread in
  let* base_views := get_base_views (thread_status thread) in
  let* age := lift (age_factor days) in
  let quality_factor :=
    calculate_quality_factor lk thread thread_posts ai_answer in
  let course_size_factor :=
    get_course_size_factor (course_enrollmentCount course) in
  let* calculated :=
    lift (let? x := int_mul base_views age in
          int_of_float (fmul (fmul x quality_factor) course_size_factor)) in
  ret (Z.min calculated 200).

Definition calculate_ai_student_endorsements (ai_answer : AIAnswer)
    (thread_views : Z) : M G Z :=
  let confidence := ai_confidenceScore ai_answer in
  let* base :=
    if 85 <=? confidence then
      let* cv := lift (let? c := true_div confidence 100 in
                       let? v := true_div thread_views 10 in
                       ok (fmul c v)) in
      let* u := uniform f0_3 f0_6 in
      ret (fmul cv u)
    else if 60 <=? confidence then
      let* cv := lift (let? c := true_div confidence 100 in
                       let? v := true_div thread_views 20 in
                       ok (fmul c v)) in
      let* u := uniform f0_2 f0_4 in
      ret (fmul cv u)
    else uniform_int 0 2 in
  let* n := lift (int_of_float base) in
  ret (Z.max 0 n).

Definition quality_citations (ai_answer : AIAnswer) : list Citation :=
  filter (fun c => 80 <= citation_relevance c) (ai_citations ai_answer).

Definition should_instructor_endorse (ai_answer : AIAnswer)
    (thread_views days_old : Z) : M G bool :=
  if ai_confidenceScore ai_answer <? 80 then ret false
  else if Z.of_nat (length (quality_citations ai_answer)) <? 2 then ret false
  else if days_old <? 1 then ret false
  else if thread_views <? 20 then ret false
  else
    let* r := draw random in
    ret (flt r f0_4).

End Script.

(** ** The mock directory and the whole run *)

Inductive Collection : Type :=
  | Threads (l : list Thread)
  | Posts (l : list Post)
  | AIAnswers (l : list AIAnswer)
  | Courses (l : list Course)
  | Users (l : list User).

(** The files of the [mocks] directory, by name.  A JSON file carries no
    tag: the directories of the model are those in which each of the five
    names, when present, holds the records of its own collection.  A
    directory that holds another collection under one of these names stands
    for no input the script is compared on; [load] stops on it, where the
    script would go on until a field it needs is missing. *)
Abbreviation Store := (gmap string Collection).

Record Loaded : Type := mkLoaded {
  threads : list Thread;
  posts : list Post;
  ai_answers : list AIAnswer;
  courses : list Course;
  users : list User
}.

Definition load (st : Store) : result Loaded :=
  let? threads := match st !! "threads.json" with
                  | Some (Threads l) => ok l | _ => raise LoadError end in
  let? posts := match st !! "posts.json" with
                | Some (Posts l) => ok l | _ => raise LoadError end in
  let? ai_answers := match st !! "ai-answers.json" with
                     | Some (AIAnswers l) => ok l | _ => raise LoadError end in
  let? courses := match st !! "courses.json" with
                  | Some (Courses l) => ok l | _ => raise LoadError end in
  let? users := match st !! "users.json" with
                | Some (Users l) => ok l | _ => raise LoadError end in
  ok (mkLoaded threads posts ai_answers courses users).

Definition set_views (thread : Thread) (v : Z) : Thread :=
  mkThread (thread_id thread) (thread_courseId thread) (thread_status thread)
           (thread_createdAt thread) (thread_hasAIAnswer thread) (Some v).

Definition set_endorsements (a : AIAnswer) (student instructor : Z)
    (endorsed : bool) (total : Z) : AIAnswer :=
  mkAIAnswer (ai_id a) (ai_threadId a) (ai_confidenceScore a) (ai_citations a)
             (Some student) (Some instructor) (Some endorsed) (Some total).

Section Run.

Context {G : Type} `{RandomSource G}.

(** Body of the loop over [threads]. *)
Definition apply_thread_metrics (lk : Lookups) (thread : Thread) : M G Thread :=
  let* v := calculate_thread_views lk thread in
  ret (set_views thread v).

(** Body of the loop over [ai_answers]; [threads] is the list the first
    loop has updated. *)
Definition apply_ai_metrics (threads : list Thread) (ai_answer : AIAnswer)
    : M G AIAnswer :=
  let* thread :=
    lift (lookup_or StopIteration
            (List.find (fun t => String.eqb (thread_id t) (ai_threadId ai_answer))
                       threads)) in
  let days_old := get_days_since_creation (thread_createdAt thread) in
  let* views := lift (lookup_or KeyError (thread_views thread)) in
  let* student_endorsements :=
    calculate_ai_student_endorsements ai_answer views in
  let* endorse := should_instructor_endorse ai_answer views days_old in
  let instructor_endorsements := if endorse then 1 else 0 in
  let total := student_endorsements + instructor_endorsements in
  let* total :=
    if 0 <? instructor_endorsements then
      lift (let? x := int_mul student_endorsements f0_3 in
            let? boost := int_of_float x in
            ok (total + boost))
    else ret total in
  ret (set_endorsements ai_answer student_endorsements
         instructor_endorsements (0 <? instructor_endorsements) total).

Definition apply_metrics (d : Loaded) : M G Loaded :=
  let lk := build_lookups (courses d) (posts d) (ai_answers d) (users d) in
  let* threads' := for_each (apply_thread_metrics lk) (threads d) in
  let* ai_answers' := for_each (apply_ai_metrics threads') (ai_answers d) in
  ret (mkLoaded threads' (posts d) ai_answers' (courses d) (users d)).

(** The three [json.dump] calls. *)
Definition save (d : Loaded) (st : Store) : Store :=
  <["ai-answers.json" := AIAnswers (ai_answers d)]>
    (<["posts.json" := Posts (posts d)]>
       (<["threads.json" := Threads (threads d)]> st)).

(** The closing summary is printed after the files are saved: [min] of an
    empty sequence and the division by [len(posts)] can still raise. *)
Definition report (d : Loaded) : option exn :=
  match threads d, posts d with
  | [], _ => Some ValueError
  | _ :: _, [] => Some ZeroDivisionError
  | _ :: _, _ :: _ => None
  end.

Record Outcome : Type := mkOutcome {
  store_after : Store;   (* the directory when the process ends *)
  saved : bool;          (* whether the three files were written *)
  raised : option exn    (* the exception that ended the process, if any *)
}.

(** The script from its first line: [ambient] is the state the
    process-wide generator has before [random.seed(42)] replaces it. *)
Definition main (ambient : G) (st : Store) : Outcome :=
  let g := @seed G _ 42 in
  match (let* d := lift (load st) in apply_metrics d) g with
  | inl e => mkOutcome st false (Some e)
  | inr (d', _) => mkOutcome (save d' st) true (report d')
  end.

End Run.

(** ** A concrete generator and a small mock directory for worked examples *)

Module Sample.

(** The state is a counter: [_randbelow(n)] yields the counter modulo [n],
    [random()] the last decimal digit of seven times the counter, over ten. *)
#[global] Instance counter_source : RandomSource Z := {|
  seed := fun n => n;
  random := fun g => (fdiv (exact_of_int ((7 * g) mod 10)) (exact_of_int 10), g + 1);
  randbelow := fun n g => (g mod n, g + 1)
|}.

Definition course_large : Course := mkCourse "course-cs101" 60.
Definition course_small : Course := mkCourse "course-math221" 30.

Definition instructor : User := mkUser "user-instructor-1" "instructor".
Definition student : User := mkUser "user-student-1" "student".

(** Resolved, 14 days before [NOW]. *)
Definition thread_old : Thread :=
  mkThread "thread-1" "course-cs101" "resolved"
           (mkDatetime 2025 9 23 12 0 0 0) (Some true) None.

(** Open, one hour before [NOW]. *)
Definition thread_new : Thread :=
  mkThread "thread-2" "course-math221" "open"
           (mkDatetime 2025 10 7 11 0 0 0) None None.

(** Open, dated four weeks after [NOW]. *)
Definition thread_future : Thread :=
  mkThread "thread-3" "course-math221" "open"
           (mkDatetime 2025 11 4 12 0 0 0) None None.

Definition reply : Post :=
  mkPost "post-1" "thread-1" "user-instructor-1" (Some true).

Definition stray_post : Post :=
  mkPost "post-2" "thread-404" "user-student-1" None.

Definition answer_good : AIAnswer :=
  mkAIAnswer "ai-1" "thread-1" 90
             [mkCitation 95; mkCitation 85; mkCitation 40] None None None None.

Definition answer_weak : AIAnswer :=
  mkAIAnswer "ai-2" "thread-2" 70 [mkCitation 90; mkCitation 30] None None None None.

Definition answer_stray : AIAnswer :=
  mkAIAnswer "ai-3" "thread-404" 90 [] None None None None.

Definition mk_store (ts : list Thread) (ps : list Post) (ais : list AIAnswer)
    (cs : list Course) (us : list User) : Store :=
  <["threads.json" := Threads ts]>
    (<["posts.json" := Posts ps]>
       (<["ai-answers.json" := AIAnswers ais]>
          (<["courses.json" := Courses cs]>
             (<["users.json" := Users us]> ∅)))).

Definition mocks : Store :=
  mk_store [thread_old; thread_new] [reply] [answer_weak; answer_good]
           [course_large; course_small] [instructor; student].

(** The same directory with a thread dated after [NOW]. *)
Definition mocks_future : Store :=
  mk_store [thread_old; thread_future] [reply] [answer_good]
           [course_large; course_small] [instructor; student].

(** A post that names a thread that does not exist. *)
Definition mocks_stray_post : Store :=
  mk_store [thread_old; thread_new] [reply; stray_post]
           [answer_weak; answer_good]
           [course_large; course_small] [instructor; student].

(** An AI answer that names a thread that does not exist. *)
Definition mocks_stray_answer : Store :=
  mk_store [thread_old; thread_new] [reply] [answer_weak; answer_stray]
           [course_large; course_small] [instructor; student].

(** A thread whose course is not in the courses file. *)
Definition mocks_stray_course : Store :=
  mk_store [thread_old; thread_new] [reply] [answer_weak; answer_good]
           [course_large] [instructor; student].

(** The directory with one more file in it, which the script never opens. *)
Definition mocks_with_notes : Store :=
  <["notes.json" := Users [student]]> mocks.

Definition lookups : Lookups :=
  build_lookups [course_large; course_small] [reply]
                [answer_weak; answer_good] [instructor; student].

End Sample.

(** ** Readings of the specification, for comparison with the code *)

(** Whole days from [created] to [NOW], the fraction dropped toward zero. *)
Definition days_truncated (created : datetime) : Z :=
  Z.quot (timestamp_us NOW - timestamp_us created) US_PER_DAY.

(** Whole days from [created] to [NOW], rounded down. *)
Definition days_floored (created : datetime) : Z :=
  (timestamp_us NOW - timestamp_us created) / US_PER_DAY.

(** [created] is later than [NOW]. *)
Definition in_future (created : datetime) : Prop :=
  timestamp_us NOW < timestamp_us created.

(** The sign bit of [x] is [s], or [x] is NaN. *)
Definition sign_is (s : bool) (x : pyfloat) : Prop :=
  match x with
  | S754_zero s' | S754_infinity s' | S754_finite s' _ _ => s' = s
  | S754_nan => True
  end.

(** A bonus of [w] hundredths, granted when [P] holds. *)
Definition bonus (P : Prop) `{Decision P} (w : Z) : Z :=
  if bool_decide P then w else 0.

(** The reply [p] was written by a user whose role is instructor. *)
Definition by_instructor (users : gmap string User) (p : Post) : Prop :=
  match users !! post_authorId p with
  | Some author => user_role author = "instructor"
  | None => False
  end.

#[global] Instance by_instructor_dec (users : gmap string User) (p : Post) :
  Decision (by_instructor users p).
Proof. unfold by_instructor. destruct (users !! post_authorId p); apply _. Defined.

(** The quality factor in hundredths: 100 plus every bonus that applies. *)
Definition quality_percent (users : gmap string User) (thread : Thread)
    (replies : list Post) : Z :=
  100
  + bonus (thread_hasAIAnswer thread = Some true) 30
  + bonus (1 <= length replies)%nat 20
  + bonus (Exists (fun p => post_endorsed p = Some true) replies) 30
  + bonus (Exists (by_instructor users) replies) 20
  + bonus (thread_status thread = "resolved") 25.

(** The course-size factor as the specification tabulates it. *)
Definition spec_course_size_factor (enrollment : Z) : pyfloat :=
  if enrollment <? 35 then f0_8
  else if (35 <=? enrollment) && (enrollment <=? 50) then f1_0
  else f1_3.

(** The age factor as the specification writes it,
    [min(1 + (days/7) * 0.5, 2.5)]: the quotient, the product and the sum
    are binary64 operations, each rounded to nearest. *)
Definition spec_age_factor (days : Z) : result pyfloat :=
  let? weeks := true_div days 7 in
  ok (fmin (fadd f1_0 (fmul weeks f0_5)) f2_5).

(** The quality factor as the specification writes it: 1.0 plus the bonuses
    that apply, that is the binary64 value of [quality_percent / 100]. *)
Definition spec_quality_factor (users : gmap string User) (thread : Thread)
    (replies : list Post) : result pyfloat :=
  true_div (quality_percent users thread replies) 100.

(** [rounding(baseViews * ageFactor * qualityFactor * courseSizeFactor)],
    capped at 200.  The product is taken from left to right in binary64,
    each multiplication rounded to nearest; [rounding] is applied to the
    rounded product. *)
Definition views_formula (rounding : pyfloat -> result Z)
    (base_views days : Z) (quality_factor : pyfloat) (enrollment : Z) : result Z :=
  let? age := spec_age_factor days in
  let? x := int_mul base_views age in
  let? n := rounding (fmul (fmul x quality_factor)
                           (spec_course_size_factor enrollment)) in
  ok (Z.min n 200).

(** The view count of the specification for a thread with the given
    replies, base view count, age in days and course enrollment. *)
Definition spec_thread_views (rounding : pyfloat -> result Z)
    (users : gmap string User) (thread : Thread) (replies : list Post)
    (base_views days enrollment : Z) : result Z :=
  let? quality := spec_quality_factor users thread replies in
  views_formula rounding base_views days quality enrollment.

(** The floor of the product taken exactly, without any rounding, for an age
    factor below the cap: [base * (1 + days/14) * percent/100 * tenths/10]
    with the quality factor in hundredths and the course-size factor in
    tenths. *)
Definition exact_views_floor (base_views days percent tenths : Z) : Z :=
  (base_views * (14 + days) * percent * tenths) / (14 * 100 * 10).

(** The quality factor from the five signals, added as the code adds them. *)
Definition quality_of_flags (has_ai has_replies endorsed instructor resolved : bool)
    : pyfloat :=
  let score := f0_0 in
  let score := if has_ai then fadd score f0_3 else score in
  let score := if has_replies then fadd score f0_2 else score in
  let score := if endorsed then fadd score f0_3 else score in
  let score := if instructor then fadd score f0_2 else score in
  let score := if resolved then fadd score f0_25 else score in
  fadd f1_0 score.

(** [thread'] is [thread] with the view count some call of
    [calculate_thread_views] returned for it. *)
Definition thread_written {G : Type} `{RandomSource G} (lk : Lookups)
    (thread thread' : Thread) : Prop :=
  exists (g g' : G) (v : Z),
    calculate_thread_views lk thread g = inr (v, g') /\
    thread' = set_views thread v.

(** [a'] is what some run of the second loop's body made of [a]. *)
Definition ai_written {G : Type} `{RandomSource G} (threads : list Thread)
    (a a' : AIAnswer) : Prop :=
  exists g g' : G, apply_ai_metrics threads a g = inr (a', g').

(** The boost of the specification: [floor(studentEndorsements * 0.3)]. *)
Definition endorsement_boost (student_endorsements : Z) : result Z :=
  let? x := int_mul student_endorsements f0_3 in
  floor_of_float x.

(** The number of citations in [cs] whose relevance is 80 or more. *)
Fixpoint count_high_relevance (cs : list Citation) : nat :=
  match cs with
  | [] => O
  | c :: cs' =>
      if 80 <=? citation_relevance c
      then S (count_high_relevance cs')
      else count_high_relevance cs'
  end.

(** The five conditions of the instructor gate; [g] is the generator state
    in which the Bernoulli draw would be made. *)
Definition gate_open {G : Type} `{RandomSource G} (ai_answer : AIAnswer)
    (thread_views days_old : Z) (g : G) : Prop :=
  80 <= ai_confidenceScore ai_answer /\
  (2 <= count_high_relevance (ai_citations ai_answer))%nat /\
  1 <= days_old /\
  20 <= thread_views /\
  flt (fst (random g)) f0_4 = true.

(** The files the script reads and the files it writes. *)
Definition input_files : list string :=
  ["threads.json"; "posts.json"; "ai-answers.json"; "courses.json"; "users.json"].

Definition output_files : list string :=
  ["threads.json"; "posts.json"; "ai-answers.json"].

(** The three kinds of reference the specification wants resolved. *)
Definition thread_without_course (d : Loaded) : Prop :=
  exists t, In t (threads d) /\
    forall c, In c (courses d) -> course_id c <> thread_courseId t.

Definition answer_without_thread (d : Loaded) : Prop :=
  exists a, In a (ai_answers d) /\
    forall t, In t (threads d) -> thread_id t <> ai_threadId a.

Definition post_without_thread (d : Loaded) : Prop :=
  exists p, In p (posts d) /\
    forall t, In t (threads d) -> thread_id t <> post_threadId p.

(** The run raised before anything was written. *)
Definition aborted {G : Type} `{RandomSource G} (ambient : G) (st : Store) : Prop :=
  saved (main ambient st) = false /\
  store_after (main ambient st) = st /\
  exists e, raised (main ambient st) = Some e.

(** ** Relations between inputs, for the properties of the whole run *)

(** Two thread records that agree on every field the script reads. *)
Definition same_thread_inputs (t t2 : Thread) : Prop :=
  thread_id t = thread_id t2 /\
  thread_courseId t = thread_courseId t2 /\
  thread_status t = thread_status t2 /\
  thread_createdAt t = thread_createdAt t2 /\
  thread_hasAIAnswer t = thread_hasAIAnswer t2.

(** Two AI answers that agree on every field the script reads. *)
Definition same_answer_inputs (a a2 : AIAnswer) : Prop :=
  ai_id a = ai_id a2 /\
  ai_threadId a = ai_threadId a2 /\
  ai_confidenceScore a = ai_confidenceScore a2 /\
  ai_citations a = ai_citations a2.

(** Two loaded directories that differ at most in the derived fields. *)
Definition same_inputs (d d2 : Loaded) : Prop :=
  Forall2 same_thread_inputs (threads d) (threads d2) /\
  Forall2 same_answer_inputs (ai_answers d) (ai_answers d2) /\
  posts d = posts d2 /\ courses d = courses d2 /\ users d = users d2.

(** [d] with another posts collection. *)
Definition with_posts (d : Loaded) (ps : list Post) : Loaded :=
  mkLoaded (threads d) ps (ai_answers d) (courses d) (users d).

(** The replies of thread [k] among [ps], in file order. *)
Definition replies_of (k : string) (ps : list Post) : list Post :=
  filter (fun p => post_threadId p = k) ps.

(** ** Exhaustive checks over the finitely many inputs of the view formula *)

(** [P] holds at the [n] integers from [d] upward. *)
Fixpoint holds_from (P : Z -> bool) (n : nat) (d : Z) : bool :=
  match n with
  | O => true
  | S n' => P d && holds_from P n' (d + 1)
  end.

Definition holds_for_both (P : bool -> bool) : bool := P true && P false.

(** The same binary64 value, bit for bit. *)
Definition float_eqb (x y : pyfloat) : bool :=
  match x, y with
  | S754_zero s, S754_zero s' => Bool.eqb s s'
  | S754_infinity s, S754_infinity s' => Bool.eqb s s'
  | S754_nan, S754_nan => true
  | S754_finite s m e, S754_finite s' m' e' =>
      Bool.eqb s s' && (m =? m')%positive && (e =? e')
  | _, _ => false
  end.

(** The oldest age, in days, that the exhaustive checks cover: a century. *)
Definition AGE_WINDOW : Z := 36500.

(** The age factor of [days] is at least 1.0, below the cap before three
    weeks and the cap itself from then on. *)
Definition age_profile_ok (days : Z) : bool :=
  match age_factor days with
  | inr a => fle f1_0 a && (if days <? 21 then flt a f2_5 else float_eqb a f2_5)
  | inl _ => false
  end.

(** [y * c] truncates to at least 6. *)
Definition product_ok (y c : pyfloat) : bool :=
  match int_of_float (fmul y c) with
  | inr n => 6 <=? n
  | inl _ => false
  end.

(** ... for every base view count from 8 to 35, at age factor [age] and
    quality factor [q], and for each course-size factor. *)
Definition views_ok_at_quality (age q : pyfloat) : bool :=
  holds_from (fun base => match int_mul base age with
                          | inr x =>
                              let y := fmul x q in
                              product_ok y f0_8 && product_ok y f1_0
                              && product_ok y f1_3
                          | inl _ => false
                          end) 28 8.

(** ... for every quality factor. *)
Definition views_ok_at_age (age : pyfloat) : bool :=
  holds_for_both (fun b1 => holds_for_both (fun b2 => holds_for_both (fun b3 =>
  holds_for_both (fun b4 => holds_for_both (fun b5 =>
    views_ok_at_quality age (quality_of_flags b1 b2 b3 b4 b5)))))).

(** ... at the age factor of [days]. *)
Definition views_ok_at_day (days : Z) : bool :=
  match age_factor days with
  | inr age => views_ok_at_age age
  | inl _ => false
  end.

(** ** More mock directories for worked examples *)

Module Edge.

(** [Sample.mocks] as [load] returns it. *)
Definition loaded : Loaded :=
  mkLoaded [Sample.thread_old; Sample.thread_new] [Sample.reply]
           [Sample.answer_weak; Sample.answer_good]
           [Sample.course_large; Sample.course_small]
           [Sample.instructor; Sample.student].

(** The same records with values left in the derived fields by an earlier,
    different computation. *)
Definition loaded_stale : Loaded :=
  mkLoaded [set_views Sample.thread_old 999; set_views Sample.thread_new (-3)]
           [Sample.reply]
           [set_endorsements Sample.answer_weak 4 1 true 9; Sample.answer_good]
           [Sample.course_large; Sample.course_small]
           [Sample.instructor; Sample.student].

Definition mocks_stale : Store :=
  Sample.mk_store (threads loaded_stale) (posts loaded_stale)
                  (ai_answers loaded_stale) (courses loaded_stale)
                  (users loaded_stale).

(** The directory without its users file. *)
Definition mocks_no_users : Store := delete "users.json" Sample.mocks.

(** Threads and AI answers, but an empty posts file. *)
Definition loaded_no_posts : Loaded := with_posts loaded [].

Definition mocks_no_posts : Store :=
  Sample.mk_store (threads loaded_no_posts) [] (ai_answers loaded_no_posts)
                  (courses loaded_no_posts) (users loaded_no_posts).

(** Five empty files. *)
Definition mocks_empty : Store := Sample.mk_store [] [] [] [] [].

(** Open, one day before [NOW], with one reply, by an instructor and not
    endorsed. *)
Definition thread_day_old : Thread :=
  mkThread "thread-4" "course-math221" "open"
           (mkDatetime 2025 10 6 12 0 0 0) None None.

Definition reply_plain : Post :=
  mkPost "post-4" "thread-4" "user-instructor-1" None.

Definition lookups_day_old : Lookups :=
  build_lookups [Sample.course_large; Sample.course_small] [reply_plain] []
                [Sample.instructor; Sample.student].

End Edge.

(** [a] implies [b]. *)
Definition implb_flag (a b : bool) : bool := negb a || b.

(** Raising signals from [b] to [b'] does not lower the quality factor. *)
Definition quality_monotone_ok (b1 b2 b3 b4 b5 b2' b3' b4' : bool) : bool :=
  implb_flag (implb_flag b2 b2' && implb_flag b3 b3' && implb_flag b4 b4')
             (fle (quality_of_flags b1 b2 b3 b4 b5)
                  (quality_of_flags b1 b2' b3' b4' b5)).

(** The age factor at [d1] is at most the one at [d2]. *)
Definition age_le_ok (d1 d2 : Z) : bool :=
  match age_factor d1, age_factor d2 with
  | inr a1, inr a2 => fle a1 a2
  | _, _ => false
  end.

(** ... for every [d2] from [d1] to 21. *)
Definition age_monotone_from (d1 : Z) : bool :=
  holds_from (age_le_ok d1) (Z.to_nat (22 - d1)) d1.

(** * Properties *)

(** ** Age in days *)

Lemma timedelta_days_floor (d s us : Z) :
  days (new_timedelta d s us) = ((d * 86400 + s) * 1000000 + us) / US_PER_DAY.
Proof.
  unfold new_timedelta, US_PER_DAY. simpl.
  Z.div_mod_to_equations. lia.
Qed.

Lemma get_days_floored (created : datetime) :
  get_days_since_creation created = days_floored created.
Proof.
  unfold get_days_since_creation, DateTime.sub, days_floored.
  rewrite timedelta_days_floor. f_equal.
  unfold timestamp_us. lia.
Qed.

(** C8, as stated, fails: one hour after [NOW] the script counts -1 day,
    truncation toward zero counts 0. *)
Lemma C8_truncation_counterexample :
  get_days_since_creation (mkDatetime 2025 10 7 13 0 0 0) = -1 /\
  days_truncated (mkDatetime 2025 10 7 13 0 0 0) = 0 /\
  get_days_since_creation (mkDatetime 2025 10 7 13 0 0 0)
    <> days_truncated (mkDatetime 2025 10 7 13 0 0 0).
Proof. vm_compute. repeat split; congruence. Qed.

(** C8 (amended): the age in days is the elapsed time divided by one day and
    rounded down; it agrees with truncation toward zero when [created] is not
    later than [NOW], and is negative whenever [created] is later than [NOW],
    by however little. *)
Theorem C8_days_rounded_down (created : datetime) :
  get_days_since_creation created = days_floored created /\
  (~ in_future created ->
     get_days_since_creation created = days_truncated created /\
     0 <= get_days_since_creation created) /\
  (in_future created -> get_days_since_creation created < 0).
Proof.
  rewrite get_days_floored.
  unfold days_floored, days_truncated, in_future, US_PER_DAY.
  set (n := timestamp_us NOW). set (c := timestamp_us created).
  split; [reflexivity | split].
  - intros Hle. assert (0 <= n - c) by lia. split.
    + symmetry. apply Z.quot_div_nonneg; lia.
    + apply Z.div_pos; lia.
  - intros Hlt. apply Z.div_lt_upper_bound; lia.
Qed.

Lemma C8_days_rounded_down_witness :
  get_days_since_creation (mkDatetime 2025 10 7 11 59 59 999999) = 0 /\
  get_days_since_creation (mkDatetime 2025 10 7 12 0 0 1) < 0.
Proof.
  pose proof (C8_days_rounded_down (mkDatetime 2025 10 7 11 59 59 999999))
    as (_ & Hpast & _).
  pose proof (C8_days_rounded_down (mkDatetime 2025 10 7 12 0 0 1))
    as (_ & _ & Hfut).
  split.
  - destruct Hpast as [Heq _]; [vm_compute; discriminate |].
    rewrite Heq. reflexivity.
  - apply Hfut. vm_compute. reflexivity.
Defined.

(** ** Signs of binary64 results

    Rounding never changes the sign, so a product or a sum of values with a
    clear sign bit has a clear sign bit, and truncating it gives a
    non-negative integer. *)

Lemma binary_round_aux_sign (s : bool) (m e : Z) (l : location) :
  sign_is s (binary_round_aux 53 1024 s m e l).
Proof.
  unfold binary_round_aux.
  destruct (shr_fexp 53 1024 m e l) as [mrs e'].
  destruct (shr_fexp 53 1024 _ e' loc_Exact) as [mrs' e''].
  destruct (shr_m mrs'); simpl; trivial.
  destruct (e'' <=? 1024 - 53); simpl; trivial.
Qed.

Lemma binary_round_sign (s : bool) (m : positive) (e : Z) :
  sign_is s (binary_round 53 1024 s m e).
Proof.
  unfold binary_round.
  destruct (shl_align m e _) as [mz ez].
  apply binary_round_aux_sign.
Qed.

Lemma sign_clear_nonneg (x : pyfloat) : sign_is false x -> nonneg x.
Proof. destruct x as [s | s | | s m e]; simpl; intros; subst; trivial. Qed.

Lemma fmul_nonneg (x y : pyfloat) : nonneg x -> nonneg y -> nonneg (fmul x y).
Proof.
  destruct x as [sx | [] | | [] mx ex]; destruct y as [sy | [] | | [] my ey];
    simpl; trivial; try contradiction; intros _ _.
  apply sign_clear_nonneg, (binary_round_aux_sign false).
Qed.

Lemma fadd_nonneg (x y : pyfloat) : nonneg x -> nonneg y -> nonneg (fadd x y).
Proof.
  destruct x as [[] | [] | | [] mx ex]; destruct y as [[] | [] | | [] my ey];
    simpl; trivial; try contradiction; intros _ _.
  apply sign_clear_nonneg. unfold fadd, SFadd, cond_Zopp. simpl Z.add.
  apply (binary_round_sign false).
Qed.

Lemma fdiv_nonneg (x : pyfloat) (my : positive) (ey : Z) :
  nonneg x -> nonneg (fdiv x (S754_finite false my ey)).
Proof.
  destruct x as [sx | [] | | [] mx ex]; simpl; trivial; try contradiction.
  intros _.
  destruct (SFdiv_core_binary 53 1024 (Z.pos mx) ex (Z.pos my) ey) as [[mz ez] lz].
  apply sign_clear_nonneg, (binary_round_aux_sign false).
Qed.

Lemma fmin_nonneg (x y : pyfloat) : nonneg x -> nonneg y -> nonneg (fmin x y).
Proof. unfold fmin. destruct (flt y x); trivial. Qed.

Lemma finite_or_overflow_inv (x y : pyfloat) :
  finite_or_overflow x = inr y -> y = x.
Proof. destruct x; simpl; intros Heq; inversion Heq; reflexivity. Qed.

Lemma exact_of_int_nonneg (z : Z) : 0 <= z -> nonneg (exact_of_int z).
Proof. destruct z; simpl; trivial. lia. Qed.

Lemma of_int_nonneg (z : Z) (x : pyfloat) :
  0 <= z -> of_int z = inr x -> nonneg x.
Proof.
  intros Hz Heq. apply finite_or_overflow_inv in Heq. subst x.
  destruct z as [| p | p]; simpl; trivial; [| lia].
  apply sign_clear_nonneg, (binary_round_sign false).
Qed.

Lemma true_div_nonneg (a b : Z) (x : pyfloat) :
  0 <= a -> 0 < b -> true_div a b = inr x -> nonneg x.
Proof.
  unfold true_div. intros Ha Hb. destruct (b =? 0); [discriminate |].
  intros Heq. apply finite_or_overflow_inv in Heq. subst x.
  destruct b as [| pb | pb]; try lia.
  apply fdiv_nonneg, exact_of_int_nonneg. assumption.
Qed.

Lemma int_mul_nonneg (z : Z) (x y : pyfloat) :
  0 <= z -> nonneg x -> int_mul z x = inr y -> nonneg y.
Proof.
  unfold int_mul, rbind. intros Hz Hx.
  destruct (of_int z) as [e | w] eqn:Hw; [discriminate |].
  intros Heq. inversion Heq. apply fmul_nonneg; [| assumption].
  eapply of_int_nonneg; eassumption.
Qed.

Lemma int_add_nonneg (z : Z) (x y : pyfloat) :
  0 <= z -> nonneg x -> int_add z x = inr y -> nonneg y.
Proof.
  unfold int_add, rbind. intros Hz Hx.
  destruct (of_int z) as [e | w] eqn:Hw; [discriminate |].
  intros Heq. inversion Heq. apply fadd_nonneg; [| assumption].
  eapply of_int_nonneg; eassumption.
Qed.

Lemma scale_nonneg (rnd : Z -> Z -> Z) (m e : Z) :
  (forall a b, 0 <= a -> 0 < b -> 0 <= rnd a b) ->
  0 <= m -> 0 <= scale rnd m e.
Proof.
  intros Hrnd Hm. unfold scale. destruct e as [| p | p].
  - lia.
  - apply Z.mul_nonneg_nonneg; [assumption | apply Z.pow_nonneg; lia].
  - apply Hrnd; [assumption |]. rewrite Z.pow_pos_fold. apply Z.pow_pos_nonneg; lia.
Qed.

Lemma int_of_float_nonneg (x : pyfloat) (n : Z) :
  nonneg x -> int_of_float x = inr n -> 0 <= n.
Proof.
  destruct x as [s | s | | [] m e]; simpl; try discriminate; try contradiction;
    intros _ Heq; inversion Heq; subst; [lia |].
  apply scale_nonneg; [| lia].
  intros a b Ha Hb. apply Z.quot_pos; lia.
Qed.

(** On a value with a clear sign bit, truncation toward zero is the floor. *)
Lemma floor_of_nonneg (x : pyfloat) :
  nonneg x -> floor_of_float x = int_of_float x.
Proof.
  destruct x as [s | s | | [] m e]; simpl; trivial; try contradiction.
  intros _. f_equal. unfold scale. destruct e; trivial.
  symmetry. apply Z.quot_div_nonneg; [lia |].
  rewrite Z.pow_pos_fold. apply Z.pow_pos_nonneg; lia.
Qed.

(** ** Inversion of monadic computations *)

Lemma rbind_inr {A B : Type} (m : result A) (k : A -> result B) (b : B) :
  rbind m k = inr b -> exists a, m = inr a /\ k a = inr b.
Proof. destruct m as [e | a]; simpl; [discriminate | eauto]. Qed.

Lemma bind_inr {G A B : Type} (m : M G A) (k : A -> M G B) (g g' : G) (b : B) :
  bind m k g = inr (b, g') ->
  exists a g1, m g = inr (a, g1) /\ k a g1 = inr (b, g').
Proof.
  unfold bind. destruct (m g) as [e | [a g1]]; [discriminate | eauto].
Qed.

Lemma lift_inr {G A : Type} (r : result A) (g g' : G) (a : A) :
  lift r g = inr (a, g') -> r = inr a /\ g' = g.
Proof.
  unfold lift. destruct r as [e | a0]; [discriminate |].
  intros Heq. inversion Heq. auto.
Qed.

Lemma ret_inr {G A : Type} (a b : A) (g g' : G) :
  ret a g = inr (b, g') -> b = a /\ g' = g.
Proof. unfold ret, ok. intros Heq. inversion Heq. auto. Qed.

Lemma draw_inr {G A : Type} (f : G -> A * G) (g g' : G) (a : A) :
  draw f g = inr (a, g') -> f g = (a, g').
Proof. unfold draw, ok. intros Heq. inversion Heq. reflexivity. Qed.

Lemma lookup_or_inr {A : Type} (e : exn) (o : option A) (a : A) :
  lookup_or e o = inr a -> o = Some a.
Proof. destruct o; simpl; intros Heq; inversion Heq; reflexivity. Qed.

(** Splits a successful run of a computation into its successful steps. *)
Ltac invert_run H :=
  repeat match type of H with
  | bind _ _ _ = inr _ =>
      let a := fresh "a" in let g := fresh "g" in
      let H1 := fresh "Hstep" in
      apply bind_inr in H; destruct H as (a & g & H1 & H)
  | ret _ _ = inr _ => apply ret_inr in H; destruct H as [? ?]; subst
  end.

Lemma for_each_Forall2 {G A B : Type} (f : A -> M G B) (l : list A) :
  forall (g g' : G) (l' : list B),
    for_each f l g = inr (l', g') ->
    Forall2 (fun x y => exists g1 g2, f x g1 = inr (y, g2)) l l'.
Proof.
  induction l as [| x l IH]; intros g g' l' Hrun; simpl in Hrun.
  - apply ret_inr in Hrun as [-> _]. constructor.
  - invert_run Hrun. constructor; eauto.
Qed.

Lemma for_each_raises {G A B : Type} (f : A -> M G B) (l : list A) (x : A) :
  In x l -> (forall g, exists e, f x g = inl e) ->
  forall g : G, exists e, for_each f l g = inl e.
Proof.
  intros Hin Hx. induction l as [| y l IH]; [contradiction |].
  intros g. simpl. unfold bind at 1.
  destruct Hin as [-> | Hin].
  - destruct (Hx g) as [e ->]. eauto.
  - destruct (f y g) as [e | [b g1]]; [eauto |].
    unfold bind. destruct (IH Hin g1) as [e ->]. eauto.
Qed.

(** ** Thread views *)

Section ViewsFacts.

Context {G : Type} `{RandomContract G}.

Lemma randint_range (a b : Z) (g g' : G) (n : Z) :
  a <= b -> randint a b g = inr (n, g') -> a <= n <= b.
Proof.
  intros Hab Hrun. unfold randint in Hrun. invert_run Hrun.
  apply draw_inr in Hstep.
  pose proof (randbelow_range (b - a + 1) g ltac:(lia)) as Hr.
  rewrite Hstep in Hr. simpl in Hr. lia.
Qed.

Lemma get_base_views_range (status : string) (g g' : G) (n : Z) :
  get_base_views status g = inr (n, g') -> 8 <= n <= 35.
Proof.
  unfold get_base_views.
  destruct (String.eqb status "resolved");
    [| destruct (String.eqb status "answered")];
    intros Hrun; apply randint_range in Hrun; lia.
Qed.

End ViewsFacts.

Lemma get_base_views_total {G : Type} `{RandomSource G} (status : string) (g : G) :
  exists n g', get_base_views status g = inr (n, g').
Proof.
  unfold get_base_views, randint, bind, draw, ret, ok.
  destruct (String.eqb status "resolved");
    [| destruct (String.eqb status "answered")];
    match goal with |- context [randbelow ?n g] => destruct (randbelow n g) end;
    eauto.
Qed.

Lemma age_factor_nonneg (days : Z) (a : pyfloat) :
  -14 <= days -> age_factor days = inr a -> nonneg a.
Proof.
  intros Hd Hage. destruct (Z_lt_le_dec days 0) as [Hneg | Hpos].
  - assert (Hcase : In days [-14;-13;-12;-11;-10;-9;-8;-7;-6;-5;-4;-3;-2;-1])
      by (simpl; lia).
    simpl in Hcase.
    repeat (destruct Hcase as [<- | Hcase];
            [vm_compute in Hage; inversion Hage; exact I |]).
    contradiction.
  - unfold age_factor in Hage.
    apply rbind_inr in Hage as (w & Hw & Hage).
    apply rbind_inr in Hage as (s & Hs & Hage).
    inversion Hage. apply fmin_nonneg; [| exact I].
    eapply int_add_nonneg; [| | exact Hs]; [lia |].
    apply fmul_nonneg; [| exact I].
    eapply true_div_nonneg; [| | exact Hw]; lia.
Qed.

Lemma get_course_size_factor_nonneg (enrollment : Z) :
  nonneg (get_course_size_factor enrollment).
Proof.
  unfold get_course_size_factor.
  destruct (enrollment <? 35); [| destruct (enrollment <=? 50)]; exact I.
Qed.

Lemma spec_age_factor_eq (days : Z) :
  spec_age_factor days = age_factor days.
Proof.
  unfold spec_age_factor, age_factor, rbind.
  destruct (true_div days 7) as [e | weeks]; reflexivity.
Qed.

Lemma spec_course_size_factor_eq (enrollment : Z) :
  spec_course_size_factor enrollment = get_course_size_factor enrollment.
Proof.
  unfold spec_course_size_factor, get_course_size_factor.
  destruct (enrollment <? 35) eqn:Hlt; [reflexivity |].
  apply Z.ltb_ge in Hlt. apply Z.leb_le in Hlt. rewrite Hlt. reflexivity.
Qed.

(** ** Quality factor *)

Lemma truthy_decide (o : option bool) :
  truthy o = bool_decide (o = Some true).
Proof. destruct o as [[] |]; reflexivity. Qed.

Lemma has_replies_decide {A : Type} (l : list A) :
  (0 <? Z.of_nat (length l)) = bool_decide (1 <= length l)%nat.
Proof. destruct l; reflexivity. Qed.

Lemma existsb_decide {A : Type} (f : A -> bool) (P : A -> Prop)
    `{forall x, Decision (P x)} (l : list A) :
  (forall x, f x = true <-> P x) ->
  existsb f l = bool_decide (Exists P l).
Proof.
  intros Hf. induction l as [| x l IH]; simpl; [reflexivity |].
  destruct (f x) eqn:Hfx; simpl.
  - symmetry. apply bool_decide_eq_true. left. apply Hf, Hfx.
  - rewrite IH. apply bool_decide_ext. rewrite Exists_cons.
    split; [tauto |]. intros [Hx | Hl]; [| exact Hl].
    apply Hf in Hx. congruence.
Qed.

Lemma string_eqb_decide (s t : string) :
  String.eqb s t = bool_decide (s = t).
Proof.
  destruct (String.eqb s t) eqn:Heq; symmetry.
  - apply bool_decide_eq_true, String.eqb_eq, Heq.
  - apply bool_decide_eq_false, String.eqb_neq, Heq.
Qed.

Lemma has_instructor_reply_decide (users : gmap string User) (l : list Post) :
  has_instructor_reply users l = bool_decide (Exists (by_instructor users) l).
Proof.
  apply existsb_decide. intros p. unfold by_instructor.
  destruct (users !! post_authorId p) as [author |]; [| split; [discriminate | tauto]].
  apply String.eqb_eq.
Qed.

Lemma any_endorsed_decide (l : list Post) :
  existsb (fun p => truthy (post_endorsed p)) l
  = bool_decide (Exists (fun p => post_endorsed p = Some true) l).
Proof.
  apply existsb_decide. intros p. rewrite truthy_decide.
  apply bool_decide_eq_true.
Qed.

Lemma quality_factor_flags (lk : Lookups) (thread : Thread)
    (replies : list Post) (ai_answer : option AIAnswer) :
  calculate_quality_factor lk thread replies ai_answer
  = quality_of_flags
      (bool_decide (thread_hasAIAnswer thread = Some true))
      (bool_decide (1 <= length replies)%nat)
      (bool_decide (Exists (fun p => post_endorsed p = Some true) replies))
      (bool_decide (Exists (by_instructor (users_by_id lk)) replies))
      (bool_decide (thread_status thread = "resolved")).
Proof.
  unfold calculate_quality_factor, quality_of_flags.
  rewrite truthy_decide, has_replies_decide, any_endorsed_decide,
    has_instructor_reply_decide, string_eqb_decide.
  reflexivity.
Qed.

(** C7: the quality factor is 1.0 plus the bonuses that apply, added in the
    order 0.3 (AI answer), 0.2 (a reply), 0.3 (an endorsed reply), 0.2 (a
    reply by an instructor, once), 0.25 (resolved); the float it returns is
    the binary64 value nearest to the exact decimal sum, and lies between
    1.0 and 2.25. *)
Theorem C7_quality_factor (lk : Lookups) (thread : Thread)
    (replies : list Post) (ai_answer : option AIAnswer) :
  true_div (quality_percent (users_by_id lk) thread replies) 100
    = inr (calculate_quality_factor lk thread replies ai_answer) /\
  fle f1_0 (calculate_quality_factor lk thread replies ai_answer) = true /\
  fle (calculate_quality_factor lk thread replies ai_answer) f2_25 = true.
Proof.
  rewrite quality_factor_flags. unfold quality_percent, bonus.
  destruct (bool_decide (thread_hasAIAnswer thread = Some true));
    destruct (bool_decide (1 <= length replies)%nat);
    destruct (bool_decide (Exists (fun p => post_endorsed p = Some true) replies));
    destruct (bool_decide (Exists (by_instructor (users_by_id lk)) replies));
    destruct (bool_decide (thread_status thread = "resolved"));
    vm_compute; auto.
Qed.

Lemma quality_factor_nonneg (lk : Lookups) (thread : Thread)
    (replies : list Post) (ai_answer : option AIAnswer) :
  nonneg (calculate_quality_factor lk thread replies ai_answer).
Proof.
  unfold calculate_quality_factor.
  destruct (truthy _); destruct (0 <? _); destruct (existsb _ _);
    destruct (has_instructor_reply _ _); destruct (String.eqb _ _);
    vm_compute; exact I.
Qed.

(** The binary64 sum of the code is the binary64 value of the decimal sum. *)
Lemma quality_factor_decimal (lk : Lookups) (thread : Thread)
    (replies : list Post) (ai_answer : option AIAnswer) :
  spec_quality_factor (users_by_id lk) thread replies
  = inr (calculate_quality_factor lk thread replies ai_answer).
Proof.
  rewrite quality_factor_flags. unfold spec_quality_factor, quality_percent, bonus.
  destruct (bool_decide (thread_hasAIAnswer thread = Some true));
    destruct (bool_decide (1 <= length replies)%nat);
    destruct (bool_decide (Exists (fun p => post_endorsed p = Some true) replies));
    destruct (bool_decide (Exists (by_instructor (users_by_id lk)) replies));
    destruct (bool_decide (thread_status thread = "resolved"));
    vm_compute; reflexivity.
Qed.

(** ** View counts *)

Section Views.

Context {G : Type} `{RandomContract G}.

(** What a successful call of [calculate_thread_views] went through. *)
Lemma calculate_thread_views_inv (lk : Lookups) (thread : Thread)
    (g g' : G) (v : Z) :
  calculate_thread_views lk thread g = inr (v, g') ->
  exists course base age x n,
    courses_by_id lk !! thread_courseId thread = Some course /\
    get_base_views (thread_status thread) g = inr (base, g') /\
    age_factor (get_days_since_creation (thread_createdAt thread)) = inr age /\
    int_mul base age = inr x /\
    int_of_float
      (fmul (fmul x (calculate_quality_factor lk thread
                       (default [] (posts_by_thread lk !! thread_id thread))
                       (ai_by_thread lk !! thread_id thread)))
            (get_course_size_factor (course_enrollmentCount course))) = inr n /\
    v = Z.min n 200.
Proof.
  intros Hrun. unfold calculate_thread_views in Hrun. invert_run Hrun.
  apply lift_inr in Hstep as [Hcourse ->]. apply lookup_or_inr in Hcourse.
  apply lift_inr in Hstep1 as [Hage ->].
  apply lift_inr in Hstep2 as [Hcalc ->].
  apply rbind_inr in Hcalc as (x & Hx & Hn).
  do 5 eexists. repeat split; eassumption.
Qed.

Lemma calculate_thread_views_bounds (lk : Lookups) (thread : Thread)
    (g g' : G) (v : Z) :
  calculate_thread_views lk thread g = inr (v, g') ->
  v <= 200 /\
  (-14 <= get_days_since_creation (thread_createdAt thread) -> 0 <= v).
Proof.
  intros Hrun.
  apply calculate_thread_views_inv in Hrun
    as (course & base & age & x & n & _ & Hbase & Hage & Hx & Hn & ->).
  split; [lia |]. intros Hdays.
  apply get_base_views_range in Hbase.
  apply Z.min_glb; [| lia].
  eapply int_of_float_nonneg; [| exact Hn].
  apply fmul_nonneg; [apply fmul_nonneg |].
  - eapply int_mul_nonneg; [| | exact Hx]; [lia |].
    eapply age_factor_nonneg; eassumption.
  - apply quality_factor_nonneg.
  - apply get_course_size_factor_nonneg.
Qed.

(** The code computes the formula with truncation toward zero. *)
Lemma calculate_thread_views_formula (lk : Lookups) (thread : Thread)
    (course : Course) (g g1 : G) (base : Z) :
  courses_by_id lk !! thread_courseId thread = Some course ->
  get_base_views (thread_status thread) g = inr (base, g1) ->
  calculate_thread_views lk thread g
  = lift (views_formula int_of_float base
            (get_days_since_creation (thread_createdAt thread))
            (calculate_quality_factor lk thread
               (default [] (posts_by_thread lk !! thread_id thread))
               (ai_by_thread lk !! thread_id thread))
            (course_enrollmentCount course)) g1.
Proof.
  intros Hcourse Hbase.
  unfold calculate_thread_views, views_formula.
  change (spec_age_factor (get_days_since_creation (thread_createdAt thread)))
    with (age_factor (get_days_since_creation (thread_createdAt thread))).
  unfold bind, lift, rbind, ret, ok.
  rewrite spec_course_size_factor_eq, Hcourse. simpl. rewrite Hbase.
  destruct (age_factor _) as [e | age]; [reflexivity |].
  destruct (int_mul base age) as [e | x]; [reflexivity |].
  destruct (int_of_float _) as [e | n]; reflexivity.
Qed.

(** The code computes the view count the specification describes, with
    truncation toward zero as the rounding. *)
Lemma calculate_thread_views_spec (lk : Lookups) (thread : Thread)
    (course : Course) (g g1 : G) (base : Z) :
  courses_by_id lk !! thread_courseId thread = Some course ->
  get_base_views (thread_status thread) g = inr (base, g1) ->
  calculate_thread_views lk thread g
  = lift (spec_thread_views int_of_float (users_by_id lk) thread
            (default [] (posts_by_thread lk !! thread_id thread))
            base (get_days_since_creation (thread_createdAt thread))
            (course_enrollmentCount course)) g1.
Proof.
  intros Hcourse Hbase. unfold spec_thread_views.
  rewrite (quality_factor_decimal lk thread _
             (ai_by_thread lk !! thread_id thread)).
  apply calculate_thread_views_formula; assumption.
Qed.

(** From 14 days before [NOW] on, the floor gives the same count. *)
Lemma views_formula_floor (base days : Z) (q : pyfloat) (enrollment : Z) :
  0 <= base -> -14 <= days -> nonneg q ->
  views_formula floor_of_float base days q enrollment
  = views_formula int_of_float base days q enrollment.
Proof.
  intros Hbase Hdays Hq. unfold views_formula.
  change (spec_age_factor days) with (age_factor days). unfold rbind.
  destruct (age_factor days) as [e | age] eqn:Hage; [reflexivity |].
  destruct (int_mul base age) as [e | x] eqn:Hx; [reflexivity |].
  rewrite floor_of_nonneg; [reflexivity |].
  apply fmul_nonneg; [apply fmul_nonneg |]; trivial.
  - eapply int_mul_nonneg; [| | exact Hx]; [lia |].
    eapply age_factor_nonneg; eassumption.
  - rewrite spec_course_size_factor_eq. apply get_course_size_factor_nonneg.
Qed.

Lemma spec_thread_views_floor (users : gmap string User) (thread : Thread)
    (replies : list Post) (base days enrollment : Z) :
  0 <= base -> -14 <= days ->
  spec_thread_views floor_of_float users thread replies base days enrollment
  = spec_thread_views int_of_float users thread replies base days enrollment.
Proof.
  intros Hbase Hdays. unfold spec_thread_views, rbind.
  destruct (spec_quality_factor users thread replies) as [e | q] eqn:Hq;
    [reflexivity |].
  apply views_formula_floor; try assumption.
  unfold spec_quality_factor in Hq.
  eapply true_div_nonneg; [| | exact Hq]; [| lia].
  unfold quality_percent, bonus.
  repeat match goal with
         | |- context [bool_decide ?P] => destruct (bool_decide P)
         end; lia.
Qed.

End Views.

(** ** Shape of a run *)

Section RunFacts.

Context {G : Type} `{RandomSource G}.

Lemma apply_thread_metrics_written (lk : Lookups) (t t' : Thread) :
  (exists g1 g2 : G, apply_thread_metrics lk t g1 = inr (t', g2)) ->
  thread_written lk t t'.
Proof.
  intros (g1 & g2 & Hrun). unfold apply_thread_metrics in Hrun.
  invert_run Hrun. do 3 eexists. split; [eassumption | reflexivity].
Qed.

Lemma apply_metrics_inv (d d' : Loaded) (g g' : G) :
  apply_metrics d g = inr (d', g') ->
  posts d' = posts d /\ courses d' = courses d /\ users d' = users d /\
  Forall2 (thread_written
             (build_lookups (courses d) (posts d) (ai_answers d) (users d)))
          (threads d) (threads d') /\
  Forall2 (ai_written (threads d')) (ai_answers d) (ai_answers d').
Proof.
  intros Hrun. unfold apply_metrics in Hrun. invert_run Hrun. simpl.
  repeat split.
  - apply for_each_Forall2 in Hstep.
    eapply Forall2_impl; [exact Hstep |].
    intros t t'. apply apply_thread_metrics_written.
  - apply for_each_Forall2 in Hstep0. exact Hstep0.
Qed.

Lemma main_saved_inv (ambient : G) (st : Store) :
  saved (main ambient st) = true ->
  exists d d' g',
    load st = inr d /\
    apply_metrics d (seed 42) = inr (d', g') /\
    store_after (main ambient st) = save d' st /\
    raised (main ambient st) = report d'.
Proof.
  unfold main.
  destruct (bind (lift (load st)) _ (seed 42)) as [e | [d' g']] eqn:Hrun;
    simpl; [discriminate |]. intros _.
  invert_run Hrun. apply lift_inr in Hstep as [Hload ->].
  eauto 10.
Qed.

Lemma main_aborted_inv (ambient : G) (st : Store) :
  saved (main ambient st) = false ->
  store_after (main ambient st) = st /\ raised (main ambient st) <> None.
Proof.
  unfold main.
  destruct (bind (lift (load st)) _ (seed 42)) as [e | [d' g']];
    simpl; [| discriminate].
  intros _. split; [reflexivity | discriminate].
Qed.

Lemma save_threads (d : Loaded) (st : Store) :
  save d st !! "threads.json" = Some (Threads (threads d)).
Proof.
  unfold save.
  rewrite lookup_insert_ne by discriminate.
  rewrite lookup_insert_ne by discriminate.
  apply lookup_insert_eq.
Qed.

Lemma save_ai_answers (d : Loaded) (st : Store) :
  save d st !! "ai-answers.json" = Some (AIAnswers (ai_answers d)).
Proof. unfold save. apply lookup_insert_eq. Qed.

Lemma save_posts (d : Loaded) (st : Store) :
  save d st !! "posts.json" = Some (Posts (posts d)).
Proof.
  unfold save. rewrite lookup_insert_ne by discriminate.
  apply lookup_insert_eq.
Qed.

Lemma save_other (d : Loaded) (st : Store) (path : string) :
  path <> "threads.json" -> path <> "posts.json" -> path <> "ai-answers.json" ->
  save d st !! path = st !! path.
Proof.
  intros Ht Hp Ha. unfold save.
  rewrite !lookup_insert_ne by congruence. reflexivity.
Qed.

(** The threads a run saved, each paired with the thread it was loaded as. *)
Lemma main_saved_threads (ambient : G) (st : Store) (ts : list Thread) :
  saved (main ambient st) = true ->
  store_after (main ambient st) !! "threads.json" = Some (Threads ts) ->
  exists d, load st = inr d /\
    Forall2 (thread_written
               (build_lookups (courses d) (posts d) (ai_answers d) (users d)))
            (threads d) ts.
Proof.
  intros Hsaved Hts.
  apply main_saved_inv in Hsaved as (d & d' & g' & Hload & Hrun & Hstore & _).
  rewrite Hstore, save_threads in Hts. inversion Hts; subst ts.
  apply apply_metrics_inv in Hrun as (_ & _ & _ & Hthreads & _).
  eauto.
Qed.

(** The AI answers a run saved, each paired with the answer it was loaded
    as, and the threads saved with them. *)
Lemma main_saved_ai_answers (ambient : G) (st : Store) (ais : list AIAnswer) :
  saved (main ambient st) = true ->
  store_after (main ambient st) !! "ai-answers.json" = Some (AIAnswers ais) ->
  exists d ts, load st = inr d /\
    store_after (main ambient st) !! "threads.json" = Some (Threads ts) /\
    Forall2 (ai_written ts) (ai_answers d) ais.
Proof.
  intros Hsaved Hais.
  apply main_saved_inv in Hsaved as (d & d' & g' & Hload & Hrun & Hstore & _).
  rewrite Hstore, save_ai_answers in Hais. inversion Hais; subst ais.
  apply apply_metrics_inv in Hrun as (_ & _ & _ & _ & Hai).
  exists d, (threads d'). rewrite Hstore, save_threads. auto.
Qed.

End RunFacts.

(** The counter generator honours the contract of [_randbelow]. *)
#[global] Instance counter_contract : RandomContract Z.
Proof.
  constructor. intros n g Hn. simpl. apply Z.mod_pos_bound. exact Hn.
Qed.

(** ** C1: range of the saved view counts *)

(** C1, as stated, fails: a thread dated four weeks after [NOW] is saved
    with a negative view count. *)
Lemma C1_future_thread_counterexample :
  saved (main 0 Sample.mocks_future) = true /\
  store_after (main 0 Sample.mocks_future) !! "threads.json"
    = Some (Threads [set_views Sample.thread_old 175;
                     set_views Sample.thread_future (-8)]) /\
  get_days_since_creation (thread_createdAt Sample.thread_future) = -28 /\
  ~ (0 <= -8 <= 200).
Proof.
  repeat split; try (vm_compute; reflexivity). lia.
Qed.

(** C1 (amended): every view count a run saves is at most 200, and it is at
    least 0 for every thread not dated more than 14 days after [NOW], so in
    particular for every thread that is not dated in the future. *)
Theorem C1_views_bounds {G : Type} `{RandomContract G}
    (ambient : G) (st : Store) (ts : list Thread) :
  saved (main ambient st) = true ->
  store_after (main ambient st) !! "threads.json" = Some (Threads ts) ->
  Forall (fun t => exists v,
            thread_views t = Some v /\ v <= 200 /\
            (-14 <= get_days_since_creation (thread_createdAt t) -> 0 <= v))
         ts.
Proof.
  intros Hsaved Hts.
  destruct (main_saved_threads ambient st ts Hsaved Hts) as (d & _ & Hall).
  clear Hsaved Hts.
  induction Hall as [| t t' l l' Hw _ IH]; constructor; [| exact IH].
  destruct Hw as (g & g' & v & Hrun & ->).
  apply calculate_thread_views_bounds in Hrun.
  exists v. simpl. tauto.
Qed.

Lemma C1_views_bounds_witness :
  Forall (fun t => exists v,
            thread_views t = Some v /\ v <= 200 /\
            (-14 <= get_days_since_creation (thread_createdAt t) -> 0 <= v))
         [set_views Sample.thread_old 175; set_views Sample.thread_new 8].
Proof.
  apply (C1_views_bounds (0 : Z) Sample.mocks); vm_compute; reflexivity.
Defined.

(** ** C2: the view formula *)

(** C2, as stated, fails: for a thread dated four weeks after [NOW] the
    product is -6.4; the code saves -6, the floor is -7. *)
Lemma C2_floor_counterexample :
  get_base_views (thread_status Sample.thread_future) (0 : Z) = inr (8, 1) /\
  calculate_thread_views Sample.lookups Sample.thread_future (0 : Z)
    = inr (-6, 1) /\
  lift (spec_thread_views floor_of_float (users_by_id Sample.lookups)
          Sample.thread_future
          (default [] (posts_by_thread Sample.lookups
                         !! thread_id Sample.thread_future))
          8
          (get_days_since_creation (thread_createdAt Sample.thread_future))
          (course_enrollmentCount Sample.course_small)) (1 : Z)
    = inr (-7, 1).
Proof. repeat split; vm_compute; reflexivity. Qed.

(** C2 (amended): [calculate_thread_views] returns the binary64 product
    ((baseViews * ageFactor) * qualityFactor) * courseSizeFactor, every
    multiplication rounded to nearest, truncated toward zero and capped at
    200, where ageFactor = min(1 + (days/7)*0.5, 2.5) in binary64,
    qualityFactor is the binary64 value of 1.0 plus the bonuses, and
    courseSizeFactor is 0.8 below 35 enrolled, 1.0 from 35 to 50, 1.3 above
    50.  This is the floor of that rounded product whenever days >= -14.
    For a resolved thread 14 days old in a course of 60, with an endorsed
    reply, a reply by an instructor and an AI answer, baseViews = 25 gives
    146.  The floor of the exact product can be one more: a thread one day
    old with quality factor 1.4 in a course below 35 gets 17 for
    baseViews = 15, where the exact product is 18. *)
Theorem C2_views_formula {G : Type} `{RandomContract G}
    (lk : Lookups) (thread : Thread) (course : Course) (g g1 : G) (base : Z) :
  courses_by_id lk !! thread_courseId thread = Some course ->
  get_base_views (thread_status thread) g = inr (base, g1) ->
  calculate_thread_views lk thread g
    = lift (spec_thread_views int_of_float (users_by_id lk) thread
              (default [] (posts_by_thread lk !! thread_id thread))
              base (get_days_since_creation (thread_createdAt thread))
              (course_enrollmentCount course)) g1 /\
  (-14 <= get_days_since_creation (thread_createdAt thread) ->
   calculate_thread_views lk thread g
     = lift (spec_thread_views floor_of_float (users_by_id lk) thread
               (default [] (posts_by_thread lk !! thread_id thread))
               base (get_days_since_creation (thread_createdAt thread))
               (course_enrollmentCount course)) g1) /\
  (thread_status thread = "resolved" ->
   get_days_since_creation (thread_createdAt thread) = 14 ->
   course_enrollmentCount course = 60 ->
   thread_hasAIAnswer thread = Some true ->
   Exists (fun p => post_endorsed p = Some true)
          (default [] (posts_by_thread lk !! thread_id thread)) ->
   Exists (by_instructor (users_by_id lk))
          (default [] (posts_by_thread lk !! thread_id thread)) ->
   base = 25 ->
   calculate_thread_views lk thread g = inr (146, g1)) /\
  (get_days_since_creation (thread_createdAt thread) = 1 ->
   course_enrollmentCount course < 35 ->
   quality_percent (users_by_id lk) thread
     (default [] (posts_by_thread lk !! thread_id thread)) = 140 ->
   base = 15 ->
   calculate_thread_views lk thread g = inr (17, g1) /\
   exact_views_floor 15 1 140 8 = 18).
Proof.
  intros Hcourse Hbase.
  pose proof (calculate_thread_views_spec lk thread course g g1 base
                Hcourse Hbase) as Hcode.
  split; [exact Hcode | split; [| split]].
  - intros Hdays. rewrite spec_thread_views_floor; [exact Hcode | | exact Hdays].
    apply get_base_views_range in Hbase. lia.
  - intros Hstatus Hdays Henr Hai Hendorsed Hinstr ->.
    rewrite Hcode, Hdays, Henr.
    assert (Hreplies : (1 <= length (default [] (posts_by_thread lk
                                                    !! thread_id thread)))%nat).
    { destruct Hendorsed; simpl; lia. }
    unfold spec_thread_views, spec_quality_factor, quality_percent, bonus.
    rewrite !bool_decide_eq_true_2 by assumption.
    vm_compute. reflexivity.
  - intros Hdays Henr Hquality ->. split; [| reflexivity].
    rewrite Hcode, Hdays.
    unfold spec_thread_views, spec_quality_factor. rewrite Hquality.
    unfold views_formula, spec_course_size_factor.
    apply Z.ltb_lt in Henr. rewrite Henr.
    vm_compute. reflexivity.
Qed.

Lemma C2_views_formula_witness :
  calculate_thread_views Sample.lookups Sample.thread_old (5 : Z) = inr (146, 6) /\
  calculate_thread_views Edge.lookups_day_old Edge.thread_day_old (7 : Z)
    = inr (17, 8).
Proof.
  split.
  - apply (C2_views_formula Sample.lookups Sample.thread_old Sample.course_large
             (5 : Z) 6 25); try (vm_compute; reflexivity).
    + apply Exists_cons_hd. reflexivity.
    + apply Exists_cons_hd. vm_compute. reflexivity.
  - apply (C2_views_formula Edge.lookups_day_old Edge.thread_day_old
             Sample.course_small (7 : Z) 8 15); vm_compute; reflexivity.
Defined.

(** ** Endorsements of AI answers *)

Section Endorsements.

Context {G : Type} `{RandomSource G}.

Lemma calculate_ai_student_endorsements_nonneg (a : AIAnswer) (views : Z)
    (g g' : G) (s : Z) :
  calculate_ai_student_endorsements a views g = inr (s, g') -> 0 <= s.
Proof.
  intros Hrun. unfold calculate_ai_student_endorsements in Hrun.
  invert_run Hrun. lia.
Qed.

Lemma quality_citations_count (a : AIAnswer) :
  length (quality_citations a) = count_high_relevance (ai_citations a).
Proof.
  unfold quality_citations.
  induction (ai_citations a) as [| c cs IH]; [reflexivity |].
  rewrite filter_cons. simpl.
  destruct (decide (80 <= citation_relevance c)) as [Hc | Hc];
    destruct (Z.leb_spec 80 (citation_relevance c)); try lia;
    simpl; rewrite ?IH; reflexivity.
Qed.

Lemma should_instructor_endorse_spec (a : AIAnswer) (views days_old : Z)
    (g g' : G) (b : bool) :
  should_instructor_endorse a views days_old g = inr (b, g') ->
  (b = true <-> gate_open a views days_old g).
Proof.
  unfold should_instructor_endorse, gate_open.
  rewrite quality_citations_count.
  destruct (ai_confidenceScore a <? 80) eqn:Hconf;
    [| destruct (Z.of_nat (count_high_relevance (ai_citations a)) <? 2) eqn:Hcit;
       [| destruct (days_old <? 1) eqn:Hdays;
          [| destruct (views <? 20) eqn:Hviews]]];
    intros Hrun; invert_run Hrun;
    try (split; [discriminate | lia]).
  apply draw_inr in Hstep.
  apply Z.ltb_ge in Hconf, Hcit, Hdays, Hviews.
  rewrite Hstep. simpl. split; [intros Hb | tauto].
  repeat split; try lia. exact Hb.
Qed.

(** Without two citations of relevance 80 or more the gate stays shut and
    no random number is drawn. *)
Lemma should_instructor_endorse_few_citations (a : AIAnswer)
    (views days_old : Z) (g g' : G) (b : bool) :
  (count_high_relevance (ai_citations a) < 2)%nat ->
  should_instructor_endorse a views days_old g = inr (b, g') ->
  b = false /\ g' = g.
Proof.
  intros Hfew. unfold should_instructor_endorse.
  rewrite quality_citations_count.
  destruct (ai_confidenceScore a <? 80);
    [intros Hrun; apply ret_inr in Hrun; tauto |].
  destruct (Z.of_nat (count_high_relevance (ai_citations a)) <? 2) eqn:Hcit;
    [intros Hrun; apply ret_inr in Hrun; tauto |].
  apply Z.ltb_ge in Hcit. lia.
Qed.

(** What a successful run of the second loop's body went through. *)
Lemma apply_ai_metrics_inv (ts : list Thread) (a a' : AIAnswer) (g g' : G) :
  apply_ai_metrics ts a g = inr (a', g') ->
  exists thread views s endorse total g1,
    List.find (fun t => String.eqb (thread_id t) (ai_threadId a)) ts = Some thread /\
    thread_views thread = Some views /\
    calculate_ai_student_endorsements a views g = inr (s, g1) /\
    should_instructor_endorse a views
      (get_days_since_creation (thread_createdAt thread)) g1 = inr (endorse, g') /\
    (if endorse
     then exists x boost, int_mul s f0_3 = inr x /\ int_of_float x = inr boost /\
                          total = s + 1 + boost
     else total = s + 0) /\
    a' = set_endorsements a s (if endorse then 1 else 0) endorse total.
Proof.
  intros Hrun. unfold apply_ai_metrics in Hrun. invert_run Hrun.
  apply lift_inr in Hstep as [Hfind ->]. apply lookup_or_inr in Hfind.
  apply lift_inr in Hstep0 as [Hviews ->]. apply lookup_or_inr in Hviews.
  destruct a3; simpl in Hstep3.
  - apply lift_inr in Hstep3 as [Htotal ->].
    apply rbind_inr in Htotal as (x & Hx & Htotal).
    apply rbind_inr in Htotal as (boost & Hboost & Htotal).
    inversion Htotal.
    exists a0, a1, a2, true, (a2 + 1 + boost), g2.
    repeat split; eauto.
  - apply ret_inr in Hstep3 as [-> ->].
    exists a0, a1, a2, false, (a2 + 0), g2.
    repeat split; eauto.
Qed.

End Endorsements.

Lemma Forall2_right {A B : Type} (R : A -> B -> Prop) (P : B -> Prop)
    (l : list A) (l' : list B) :
  Forall2 R l l' -> (forall x y, R x y -> P y) -> Forall P l'.
Proof.
  intros Hall Himp. induction Hall; constructor; eauto.
Qed.

(** ** C4: the instructor gate *)

(** C4: [should_instructor_endorse] returns true only if (indeed, exactly
    if) confidence >= 80, two citations have relevance >= 80, daysOld >= 1,
    views >= 20 and the draw is below 0.4.  So every saved answer with
    [instructorEndorsements = 1] passed the gate on its thread's saved views
    and age, and every saved answer with fewer than two such citations has
    [instructorEndorsements = 0]. *)
Theorem C4_instructor_gate {G : Type} `{RandomSource G} :
  (forall (a : AIAnswer) (views days_old : Z) (g g' : G) (b : bool),
      should_instructor_endorse a views days_old g = inr (b, g') ->
      (b = true <-> gate_open a views days_old g)) /\
  (forall (ambient : G) (st : Store) (ts : list Thread) (ais : list AIAnswer),
      saved (main ambient st) = true ->
      store_after (main ambient st) !! "threads.json" = Some (Threads ts) ->
      store_after (main ambient st) !! "ai-answers.json" = Some (AIAnswers ais) ->
      Forall (fun a => exists i,
                ai_instructorEndorsements a = Some i /\
                (i = 1 ->
                 exists thread views g,
                   In thread ts /\ thread_id thread = ai_threadId a /\
                   thread_views thread = Some views /\
                   gate_open a views
                     (get_days_since_creation (thread_createdAt thread)) g) /\
                ((count_high_relevance (ai_citations a) < 2)%nat -> i = 0))
             ais).
Proof.
  split; [exact should_instructor_endorse_spec |].
  intros ambient st ts ais Hsaved Hts Hais.
  destruct (main_saved_ai_answers ambient st ais Hsaved Hais)
    as (d & ts' & _ & Hts' & Hall).
  rewrite Hts in Hts'. inversion Hts'; subst ts'.
  eapply Forall2_right; [exact Hall |].
  intros a a' (g & g' & Hrun).
  apply apply_ai_metrics_inv in Hrun
    as (thread & views & s & endorse & total & g1
        & Hfind & Hviews & _ & Hgate & _ & ->).
  exists (if endorse then 1 else 0). simpl. split; [reflexivity | split].
  - intros Hone. destruct endorse; [| discriminate].
    apply find_some in Hfind as [Hin Hid]. apply String.eqb_eq in Hid.
    exists thread, views, g1. repeat split; try assumption.
    all: apply (should_instructor_endorse_spec _ _ _ _ _ _ Hgate); reflexivity.
  - intros Hfew.
    destruct (should_instructor_endorse_few_citations _ _ _ _ _ _ Hfew Hgate)
      as [-> _].
    reflexivity.
Qed.

Lemma C4_instructor_gate_witness :
  Forall (fun a => exists i,
            ai_instructorEndorsements a = Some i /\
            ((count_high_relevance (ai_citations a) < 2)%nat -> i = 0))
         [set_endorsements Sample.answer_weak 0 0 false 0;
          set_endorsements Sample.answer_good 7 1 true 10].
Proof.
  assert (Hsaved : saved (main (0 : Z) Sample.mocks) = true)
    by (vm_compute; reflexivity).
  assert (Hts : store_after (main (0 : Z) Sample.mocks) !! "threads.json"
                = Some (Threads [set_views Sample.thread_old 175;
                                 set_views Sample.thread_new 8]))
    by (vm_compute; reflexivity).
  assert (Hais : store_after (main (0 : Z) Sample.mocks) !! "ai-answers.json"
                 = Some (AIAnswers
                           [set_endorsements Sample.answer_weak 0 0 false 0;
                            set_endorsements Sample.answer_good 7 1 true 10]))
    by (vm_compute; reflexivity).
  pose proof (proj2 (C4_instructor_gate (G := Z)) 0 Sample.mocks _ _
                Hsaved Hts Hais) as Hall.
  eapply Forall_impl; [exact Hall |].
  intros a (i & Hi & _ & Hfew). exists i. split; assumption.
Defined.

(** ** C5 and C6: the saved endorsement counts *)

(** Up to 2000 student endorsements the binary64 product is close enough
    to the decimal one: the boost is [3 * s / 10] rounded down. *)
Lemma endorsement_boost_small (s : Z) :
  0 <= s < 2000 -> endorsement_boost s = inr (3 * s / 10).
Proof.
  intros Hs.
  assert (Hall : forallb (fun s => match endorsement_boost s with
                                   | inr b => b =? 3 * s / 10
                                   | inl _ => false
                                   end) (seqZ 0 2000) = true)
    by (vm_compute; reflexivity).
  rewrite forallb_forall in Hall.
  specialize (Hall s). rewrite <- list_elem_of_In, elem_of_seqZ in Hall.
  specialize (Hall ltac:(lia)).
  destruct (endorsement_boost s) as [e | b]; [discriminate |].
  apply Z.eqb_eq in Hall. subst b. reflexivity.
Qed.


(** C5: every saved AI answer has [studentEndorsements >= 0],
    [instructorEndorsements] 0 or 1, and
    [totalEndorsements >= studentEndorsements + instructorEndorsements]. *)
Theorem C5_endorsement_invariants {G : Type} `{RandomSource G}
    (ambient : G) (st : Store) (ais : list AIAnswer) :
  saved (main ambient st) = true ->
  store_after (main ambient st) !! "ai-answers.json" = Some (AIAnswers ais) ->
  Forall (fun a => exists s i t,
            ai_studentEndorsements a = Some s /\
            ai_instructorEndorsements a = Some i /\
            ai_totalEndorsements a = Some t /\
            0 <= s /\ (i = 0 \/ i = 1) /\ s + i <= t)
         ais.
Proof.
  intros Hsaved Hais.
  destruct (main_saved_ai_answers ambient st ais Hsaved Hais)
    as (d & ts & _ & _ & Hall).
  eapply Forall2_right; [exact Hall |].
  intros a a' (g & g' & Hrun).
  apply apply_ai_metrics_inv in Hrun
    as (thread & views & s & endorse & total & g1
        & _ & _ & Hs & _ & Htotal & ->).
  apply calculate_ai_student_endorsements_nonneg in Hs.
  exists s, (if endorse then 1 else 0), total. simpl.
  repeat split; try assumption.
  - destruct endorse; auto.
  - destruct endorse; [| lia].
    destruct Htotal as (x & boost & Hx & Hboost & ->).
    apply int_of_float_nonneg in Hboost; [lia |].
    eapply int_mul_nonneg; [exact Hs | | exact Hx]. exact I.
Qed.

Lemma C5_endorsement_invariants_witness :
  Forall (fun a => exists s i t,
            ai_studentEndorsements a = Some s /\
            ai_instructorEndorsements a = Some i /\
            ai_totalEndorsements a = Some t /\
            0 <= s /\ (i = 0 \/ i = 1) /\ s + i <= t)
         [set_endorsements Sample.answer_weak 0 0 false 0;
          set_endorsements Sample.answer_good 7 1 true 10].
Proof.
  apply (C5_endorsement_invariants (0 : Z) Sample.mocks);
    vm_compute; reflexivity.
Defined.

(** C6: for every saved AI answer, [totalEndorsements] is
    [studentEndorsements + instructorEndorsements], plus
    [floor(studentEndorsements * 0.3)] exactly when the instructor endorsed;
    and [instructorEndorsed] is true if and only if
    [instructorEndorsements > 0]. *)
Theorem C6_total_and_flag {G : Type} `{RandomSource G}
    (ambient : G) (st : Store) (ais : list AIAnswer) :
  saved (main ambient st) = true ->
  store_after (main ambient st) !! "ai-answers.json" = Some (AIAnswers ais) ->
  Forall (fun a => exists s i t e,
            ai_studentEndorsements a = Some s /\
            ai_instructorEndorsements a = Some i /\
            ai_totalEndorsements a = Some t /\
            ai_instructorEndorsed a = Some e /\
            (e = true <-> 0 < i) /\
            (0 < i -> exists boost,
                endorsement_boost s = inr boost /\ t = s + i + boost) /\
            (~ 0 < i -> t = s + i))
         ais.
Proof.
  intros Hsaved Hais.
  destruct (main_saved_ai_answers ambient st ais Hsaved Hais)
    as (d & ts & _ & _ & Hall).
  eapply Forall2_right; [exact Hall |].
  intros a a' (g & g' & Hrun).
  apply apply_ai_metrics_inv in Hrun
    as (thread & views & s & endorse & total & g1
        & _ & _ & Hs & _ & Htotal & ->).
  apply calculate_ai_student_endorsements_nonneg in Hs.
  exists s, (if endorse then 1 else 0), total, endorse. simpl.
  destruct endorse.
  - destruct Htotal as (x & boost & Hx & Hboost & ->).
    repeat split; try reflexivity; try lia.
    intros _. exists boost. split; [| reflexivity].
    unfold endorsement_boost. rewrite Hx. simpl.
    rewrite floor_of_nonneg; [exact Hboost |].
    eapply int_mul_nonneg; [exact Hs | | exact Hx]. exact I.
  - repeat split; try reflexivity; try lia; try discriminate.
Qed.

Lemma C6_total_and_flag_witness :
  Forall (fun a => exists s i t e,
            ai_studentEndorsements a = Some s /\
            ai_instructorEndorsements a = Some i /\
            ai_totalEndorsements a = Some t /\
            ai_instructorEndorsed a = Some e /\
            (e = true <-> 0 < i) /\
            (0 < i -> exists boost,
                endorsement_boost s = inr boost /\ t = s + i + boost) /\
            (~ 0 < i -> t = s + i))
         [set_endorsements Sample.answer_weak 0 0 false 0;
          set_endorsements Sample.answer_good 7 1 true 10].
Proof.
  apply (C6_total_and_flag (0 : Z) Sample.mocks); vm_compute; reflexivity.
Defined.

(** ** C9: references that do not resolve *)

Lemma foldl_insert_other {A : Type} (key : A -> string) (l : list A) (k : string) :
  (forall a, In a l -> key a <> k) ->
  forall m : gmap string A,
    foldl (fun m a => <[key a := a]> m) m l !! k = m !! k.
Proof.
  induction l as [| x l IH]; intros Hne m; simpl; [reflexivity |].
  rewrite IH by (intros a Ha; apply Hne; right; exact Ha).
  apply lookup_insert_ne, Hne. left. reflexivity.
Qed.

Lemma index_by_missing {A : Type} (key : A -> string) (l : list A) (k : string) :
  (forall a, In a l -> key a <> k) -> index_by key l !! k = None.
Proof.
  intros Hne. unfold index_by. rewrite foldl_insert_other by exact Hne.
  apply lookup_empty.
Qed.

Lemma find_thread_missing (ts : list Thread) (k : string) :
  (forall t, In t ts -> thread_id t <> k) ->
  List.find (fun t => String.eqb (thread_id t) k) ts = None.
Proof.
  intros Hne. destruct (List.find _ ts) as [t |] eqn:Hfind; [| reflexivity].
  apply find_some in Hfind as [Hin Heq]. apply String.eqb_eq in Heq.
  destruct (Hne t Hin Heq).
Qed.

Section Dangling.

Context {G : Type} `{RandomSource G}.

Lemma thread_written_id (lk : Lookups) (t t' : Thread) :
  thread_written lk t t' -> thread_id t' = thread_id t.
Proof. intros (g & g' & v & _ & ->). reflexivity. Qed.

Lemma written_threads_ids (lk : Lookups) (ts ts' : list Thread) (k : string) :
  Forall2 (thread_written lk) ts ts' ->
  (forall t, In t ts -> thread_id t <> k) ->
  forall t', In t' ts' -> thread_id t' <> k.
Proof.
  intros Hall. induction Hall as [| t t' l l' Hw _ IH]; intros Hne u Hin.
  - destruct Hin.
  - destruct Hin as [<- | Hin].
    + rewrite (thread_written_id _ _ _ Hw). apply Hne. left. reflexivity.
    + apply IH; [| exact Hin]. intros x Hx. apply Hne. right. exact Hx.
Qed.

Lemma apply_thread_metrics_no_course (lk : Lookups) (t : Thread) (g : G) :
  courses_by_id lk !! thread_courseId t = None ->
  apply_thread_metrics lk t g = inl KeyError.
Proof.
  intros Hnone.
  unfold apply_thread_metrics, calculate_thread_views, bind, lift.
  rewrite Hnone. reflexivity.
Qed.

Lemma apply_ai_metrics_no_thread (ts : list Thread) (a : AIAnswer) (g : G) :
  List.find (fun t => String.eqb (thread_id t) (ai_threadId a)) ts = None ->
  apply_ai_metrics ts a g = inl StopIteration.
Proof.
  intros Hnone. unfold apply_ai_metrics, bind, lift.
  rewrite Hnone. reflexivity.
Qed.

Lemma apply_metrics_dangling (d : Loaded) (g : G) :
  thread_without_course d \/ answer_without_thread d ->
  exists e, apply_metrics d g = inl e.
Proof.
  intros Hdangling. unfold apply_metrics, bind at 1.
  destruct (for_each _ (threads d) g) as [e | [ts' g1]] eqn:Hthreads; [eauto |].
  destruct Hdangling as [(t & Hin & Hne) | (a & Hin & Hne)].
  - destruct (for_each_raises
                (apply_thread_metrics
                   (build_lookups (courses d) (posts d) (ai_answers d) (users d)))
                (threads d) t Hin) with (g := g) as [e He].
    + intros g0. exists KeyError. apply apply_thread_metrics_no_course.
      apply index_by_missing. exact Hne.
    + rewrite He in Hthreads. discriminate.
  - apply for_each_Forall2 in Hthreads.
    assert (Hw : Forall2 (thread_written
                            (build_lookups (courses d) (posts d) (ai_answers d)
                               (users d))) (threads d) ts').
    { eapply Forall2_impl; [exact Hthreads |].
      intros x y. apply apply_thread_metrics_written. }
    unfold bind.
    destruct (for_each_raises (apply_ai_metrics ts') (ai_answers d) a Hin)
      with (g := g1) as [e ->]; [| eauto].
    intros g0. exists StopIteration. apply apply_ai_metrics_no_thread.
    apply find_thread_missing.
    eapply written_threads_ids; eassumption.
Qed.

Lemma main_raises (ambient : G) (st : Store) (d : Loaded) :
  load st = inr d ->
  (exists e, apply_metrics d (seed 42) = inl e) ->
  aborted ambient st.
Proof.
  intros Hload [e He].
  assert (Hmain : main ambient st = mkOutcome st false (Some e)).
  { unfold main. cbv zeta. unfold bind at 1, lift, ok.
    rewrite Hload. cbv beta iota. rewrite He. reflexivity. }
  unfold aborted. rewrite Hmain. simpl.
  split; [reflexivity | split; [reflexivity | exists e; reflexivity]].
Qed.

End Dangling.

(** C9, as stated, fails for posts: a post that names a thread that does
    not exist is grouped under that name and never looked up; the run
    saves its files and ends without an exception. *)
Lemma C9_stray_post_counterexample :
  exists d,
    load Sample.mocks_stray_post = inr d /\
    post_without_thread d /\
    saved (main (0 : Z) Sample.mocks_stray_post) = true /\
    raised (main (0 : Z) Sample.mocks_stray_post) = None.
Proof.
  eexists. split; [vm_compute; reflexivity |].
  split; [| split; vm_compute; reflexivity].
  exists Sample.stray_post. split; [right; left; reflexivity |].
  intros t [<- | [<- | []]]; vm_compute; discriminate.
Qed.

(** C9 (amended): if a thread names a course that is not in the courses
    file, or an AI answer names a thread that is not in the threads file,
    the run raises before it writes anything. *)
Theorem C9_dangling_reference_aborts {G : Type} `{RandomSource G}
    (ambient : G) (st : Store) (d : Loaded) :
  load st = inr d ->
  thread_without_course d \/ answer_without_thread d ->
  aborted ambient st.
Proof.
  intros Hload Hdangling.
  eapply main_raises; [exact Hload |].
  apply apply_metrics_dangling. exact Hdangling.
Qed.

Lemma C9_dangling_reference_aborts_witness :
  aborted (0 : Z) Sample.mocks_stray_answer /\
  aborted (0 : Z) Sample.mocks_stray_course.
Proof.
  split.
  - eapply (C9_dangling_reference_aborts (0 : Z) Sample.mocks_stray_answer);
      [vm_compute; reflexivity |].
    right. exists Sample.answer_stray. split; [right; left; reflexivity |].
    intros t [<- | [<- | []]]; vm_compute; discriminate.
  - eapply (C9_dangling_reference_aborts (0 : Z) Sample.mocks_stray_course);
      [vm_compute; reflexivity |].
    left. exists Sample.thread_new. split; [right; left; reflexivity |].
    intros c [<- | []]; vm_compute; discriminate.
Defined.

(** ** C10: what a run leaves untouched *)

Lemma load_posts (st : Store) (d : Loaded) :
  load st = inr d -> st !! "posts.json" = Some (Posts (posts d)).
Proof.
  unfold load, rbind.
  destruct (st !! "threads.json") as [[] |]; try discriminate.
  destruct (st !! "posts.json") as [[] |]; try discriminate.
  destruct (st !! "ai-answers.json") as [[] |]; try discriminate.
  destruct (st !! "courses.json") as [[] |]; try discriminate.
  destruct (st !! "users.json") as [[] |]; try discriminate.
  intros Heq. inversion Heq. reflexivity.
Qed.

(** C10: a run changes no file other than [threads.json] and
    [ai-answers.json]: [courses.json], [users.json] and every other file
    keep their content, and [posts.json], though written, holds the
    collection that was loaded; the computation itself hands the posts (and
    the courses and users) on unchanged. *)
Theorem C10_frame {G : Type} `{RandomSource G} :
  (forall (ambient : G) (st : Store) (path : string),
      path <> "threads.json" -> path <> "ai-answers.json" ->
      store_after (main ambient st) !! path = st !! path) /\
  (forall (d d' : Loaded) (g g' : G),
      apply_metrics d g = inr (d', g') ->
      posts d' = posts d /\ courses d' = courses d /\ users d' = users d).
Proof.
  split.
  - intros ambient st path Hthreads Hai.
    destruct (saved (main ambient st)) eqn:Hsaved.
    + apply main_saved_inv in Hsaved
        as (d & d' & g' & Hload & Hrun & -> & _).
      apply apply_metrics_inv in Hrun as (Hposts & _).
      destruct (decide (path = "posts.json")) as [-> | Hother].
      * rewrite save_posts, Hposts. symmetry. apply load_posts, Hload.
      * apply save_other; assumption.
    + apply main_aborted_inv in Hsaved as [-> _]. reflexivity.
  - intros d d' g g' Hrun.
    apply apply_metrics_inv in Hrun as (Hposts & Hcourses & Husers & _).
    auto.
Qed.

Lemma C10_frame_witness :
  store_after (main (0 : Z) Sample.mocks) !! "posts.json"
    = Sample.mocks !! "posts.json" /\
  store_after (main (0 : Z) Sample.mocks) !! "courses.json"
    = Sample.mocks !! "courses.json" /\
  store_after (main (0 : Z) Sample.mocks) !! "users.json"
    = Sample.mocks !! "users.json".
Proof.
  pose proof (proj1 (C10_frame (G := Z)) 0 Sample.mocks) as Hframe.
  split; [| split]; apply Hframe; discriminate.
Defined.

(** ** C3: determinism *)

Lemma load_agree (st1 st2 : Store) :
  (forall path, In path input_files -> st1 !! path = st2 !! path) ->
  load st1 = load st2.
Proof.
  intros Hagree. unfold load.
  rewrite (Hagree "threads.json") by (simpl; tauto).
  rewrite (Hagree "posts.json") by (simpl; tauto).
  rewrite (Hagree "ai-answers.json") by (simpl; tauto).
  rewrite (Hagree "courses.json") by (simpl; tauto).
  rewrite (Hagree "users.json") by (simpl; tauto).
  reflexivity.
Qed.

(** C3: two runs that find the same five input files end the same way and
    leave the same three output files, whatever state the generator was in
    before [random.seed(42)] and whatever else the directory holds: the
    seed is set once, before any draw, and [NOW] is a constant. *)
Theorem C3_determinism {G : Type} `{RandomSource G}
    (ambient1 ambient2 : G) (st1 st2 : Store) :
  (forall path, In path input_files -> st1 !! path = st2 !! path) ->
  saved (main ambient1 st1) = saved (main ambient2 st2) /\
  raised (main ambient1 st1) = raised (main ambient2 st2) /\
  (forall path, In path output_files ->
     store_after (main ambient1 st1) !! path
     = store_after (main ambient2 st2) !! path).
Proof.
  intros Hagree. pose proof (load_agree st1 st2 Hagree) as Hload.
  unfold main. rewrite Hload.
  destruct (bind (lift (load st2)) _ (seed 42)) as [e | [d' g']]; simpl.
  - repeat split. intros path Hin. apply Hagree.
    simpl in Hin |- *. tauto.
  - repeat split. intros path Hin. simpl in Hin.
    destruct Hin as [<- | [<- | [<- | []]]].
    + rewrite !save_threads. reflexivity.
    + rewrite !save_posts. reflexivity.
    + rewrite !save_ai_answers. reflexivity.
Qed.

Lemma C3_determinism_witness :
  saved (main (0 : Z) Sample.mocks) = saved (main (7 : Z) Sample.mocks_with_notes) /\
  raised (main (0 : Z) Sample.mocks) = raised (main (7 : Z) Sample.mocks_with_notes) /\
  (forall path, In path output_files ->
     store_after (main (0 : Z) Sample.mocks) !! path
     = store_after (main (7 : Z) Sample.mocks_with_notes) !! path).
Proof.
  apply (C3_determinism (0 : Z) 7 Sample.mocks Sample.mocks_with_notes).
  intros path Hin. simpl in Hin.
  repeat (destruct Hin as [<- | Hin]; [vm_compute; reflexivity |]).
  contradiction.
Defined.

(** * Further properties of the script *)

(** ** The lookups built after loading *)

Lemma index_by_snoc {A : Type} (key : A -> string) (l : list A) (a : A) :
  index_by key (l ++ [a]) = <[key a := a]> (index_by key l).
Proof. unfold index_by. rewrite foldl_app. reflexivity. Qed.

Lemma index_by_last {A : Type} (key : A -> string) (l : list A) (k : string) :
  index_by key l !! k = last (filter (fun a => key a = k) l).
Proof.
  induction l as [| a l IH] using rev_ind; [apply lookup_empty |].
  rewrite index_by_snoc, filter_app, filter_cons, filter_nil.
  destruct (decide (key a = k)) as [Heq | Hne].
  - rewrite last_snoc, Heq. apply lookup_insert_eq.
  - rewrite app_nil_r, lookup_insert_ne by exact Hne. exact IH.
Qed.

(** The three dict comprehensions keep, for every key, the last record of
    the file that carries it: a later course, user or AI answer with the
    same key replaces an earlier one. *)
Theorem lookups_keep_last_record (cs : list Course) (ps : list Post)
    (ais : list AIAnswer) (us : list User) (k : string) :
  courses_by_id (build_lookups cs ps ais us) !! k
    = last (filter (fun c => course_id c = k) cs) /\
  ai_by_thread (build_lookups cs ps ais us) !! k
    = last (filter (fun a => ai_threadId a = k) ais) /\
  users_by_id (build_lookups cs ps ais us) !! k
    = last (filter (fun u => user_id u = k) us).
Proof. simpl. repeat split; apply index_by_last. Qed.

Lemma group_posts_snoc_lookup (ps : list Post) (p : Post) (k : string) :
  group_posts (ps ++ [p]) !! k
  = if decide (post_threadId p = k)
    then Some (default [] (group_posts ps !! k) ++ [p])
    else group_posts ps !! k.
Proof.
  unfold group_posts. rewrite foldl_app. simpl.
  set (m := foldl _ ∅ ps).
  destruct (decide (post_threadId p = k)) as [<- | Hne].
  - rewrite lookup_insert_eq.
    destruct (m !! post_threadId p) eqn:Hm; rewrite ?Hm; [reflexivity |].
    rewrite lookup_insert_eq. reflexivity.
  - rewrite lookup_insert_ne by exact Hne.
    destruct (m !! post_threadId p); [reflexivity |].
    apply lookup_insert_ne, Hne.
Qed.

Lemma group_posts_lookup (ps : list Post) (k : string) :
  group_posts ps !! k
  = match replies_of k ps with
    | [] => None
    | l => Some l
    end.
Proof.
  unfold replies_of.
  induction ps as [| p ps IH] using rev_ind; [apply lookup_empty |].
  rewrite group_posts_snoc_lookup, filter_app, filter_cons, filter_nil, IH.
  destruct (decide (post_threadId p = k)) as [Heq | Hne].
  - destruct (filter _ ps); reflexivity.
  - rewrite app_nil_r. reflexivity.
Qed.

Lemma replies_default (ps : list Post) (k : string) :
  default [] (group_posts ps !! k) = replies_of k ps.
Proof. rewrite group_posts_lookup. destruct (replies_of k ps); reflexivity. Qed.

(** [posts_by_thread] holds, under each thread id, exactly the posts with
    that [threadId], in file order; an id that no post carries is not a key,
    so [.get(id, [])] yields the empty list for it. *)
Theorem posts_by_thread_groups_in_order (cs : list Course) (ps : list Post)
    (ais : list AIAnswer) (us : list User) (k : string) :
  default [] (posts_by_thread (build_lookups cs ps ais us) !! k)
    = replies_of k ps /\
  (posts_by_thread (build_lookups cs ps ais us) !! k = None
   <-> forall p, In p ps -> post_threadId p <> k).
Proof.
  simpl. split; [apply replies_default |].
  rewrite group_posts_lookup. unfold replies_of. split.
  - intros Hnone p Hin Heq.
    assert (Hp : p ∈ filter (fun p => post_threadId p = k) ps).
    { apply list_elem_of_filter. split; [exact Heq |].
      apply list_elem_of_In, Hin. }
    destruct (filter _ ps); [inversion Hp | discriminate].
  - intros Hne.
    destruct (filter _ ps) as [| p l] eqn:Hf; [reflexivity |].
    assert (Hp : p ∈ filter (fun p => post_threadId p = k) ps)
      by (rewrite Hf; left).
    apply list_elem_of_filter in Hp as [Heq Hin].
    apply list_elem_of_In in Hin. destruct (Hne p Hin Heq).
Qed.

(** ** Age in days and the time of day *)

(** [NOW] is noon: a thread created at or before noon of its day is as many
    days old as the calendar says, one created after noon is a day younger. *)
Theorem days_by_time_of_day (created : datetime) :
  0 <= secs_of_day created < 86400 ->
  0 <= microsecond created < 1000000 ->
  get_days_since_creation created
  = toordinal NOW - toordinal created
    - (if secs_of_day created * 1000000 + microsecond created <=? 43200000000
       then 0 else 1).
Proof.
  intros Hs Hus.
  unfold get_days_since_creation, DateTime.sub, new_timedelta. simpl days.
  change (secs_of_day NOW) with 43200. change (microsecond NOW) with 0.
  destruct (Z.leb_spec (secs_of_day created * 1000000 + microsecond created)
              43200000000);
    Z.div_mod_to_equations; lia.
Qed.

Lemma days_by_time_of_day_witness :
  get_days_since_creation (mkDatetime 2025 9 23 12 0 0 0) = 14 /\
  get_days_since_creation (mkDatetime 2025 9 23 12 0 0 1) = 13.
Proof.
  split.
  - rewrite (days_by_time_of_day (mkDatetime 2025 9 23 12 0 0 0));
      [reflexivity | vm_compute; split; congruence | vm_compute; split; congruence].
  - rewrite (days_by_time_of_day (mkDatetime 2025 9 23 12 0 0 1));
      [reflexivity | vm_compute; split; congruence | vm_compute; split; congruence].
Defined.

(** ** What the two loops keep *)

Lemma for_each_ext {G A B : Type} (R : A -> A -> Prop) (f f2 : A -> M G B)
    (l l2 : list A) :
  Forall2 R l l2 ->
  (forall x y g, R x y -> f x g = f2 y g) ->
  forall g, for_each f l g = for_each f2 l2 g.
Proof.
  intros Hall Hf. induction Hall as [| x y l l2 Hxy _ IH]; intros g; simpl;
    [reflexivity |].
  unfold bind at 1 3. rewrite (Hf x y g Hxy).
  destruct (f2 y g) as [e | [b g1]]; [reflexivity |].
  unfold bind. rewrite IH. reflexivity.
Qed.

Lemma for_each_ext_in {G A B : Type} (f f2 : A -> M G B) (l : list A) :
  (forall x g, In x l -> f x g = f2 x g) ->
  forall g, for_each f l g = for_each f2 l g.
Proof.
  intros Hf. apply (for_each_ext (fun x y => x = y /\ In x l)).
  - clear Hf.
    assert (Haux : forall l0, (forall x, In x l0 -> In x l) ->
                              Forall2 (fun x y => x = y /\ In x l) l0 l0).
    { induction l0 as [| x l0 IH]; intros Hsub; constructor.
      - split; [reflexivity | apply Hsub; left; reflexivity].
      - apply IH. intros y Hy. apply Hsub. right. exact Hy. }
    apply Haux. auto.
  - intros x y g [<- Hin]. apply Hf, Hin.
Qed.

Section LoopFacts.

Context {G : Type} `{RandomSource G}.

Lemma calculate_thread_views_ext (lk lk2 : Lookups) (t t2 : Thread) (g : G) :
  courses_by_id lk = courses_by_id lk2 ->
  users_by_id lk = users_by_id lk2 ->
  default [] (posts_by_thread lk !! thread_id t)
    = default [] (posts_by_thread lk2 !! thread_id t) ->
  same_thread_inputs t t2 ->
  calculate_thread_views lk t g = calculate_thread_views lk2 t2 g.
Proof.
  intros Hc Hu Hp (Hid & Hcid & Hst & Hcr & Hai).
  unfold calculate_thread_views, calculate_quality_factor.
  rewrite <- Hid, <- Hcid, <- Hst, <- Hcr, <- Hai, <- Hc, <- Hu, <- Hp.
  reflexivity.
Qed.

Lemma apply_thread_metrics_ext (lk lk2 : Lookups) (t t2 : Thread) (g : G) :
  courses_by_id lk = courses_by_id lk2 ->
  users_by_id lk = users_by_id lk2 ->
  default [] (posts_by_thread lk !! thread_id t)
    = default [] (posts_by_thread lk2 !! thread_id t) ->
  same_thread_inputs t t2 ->
  apply_thread_metrics lk t g = apply_thread_metrics lk2 t2 g.
Proof.
  intros Hc Hu Hp Hsame. unfold apply_thread_metrics, bind.
  rewrite (calculate_thread_views_ext lk lk2 t t2 g Hc Hu Hp Hsame).
  destruct Hsame as (Hid & Hcid & Hst & Hcr & Hai).
  unfold set_views. rewrite Hid, Hcid, Hst, Hcr, Hai. reflexivity.
Qed.

Lemma apply_ai_metrics_ext (ts : list Thread) (a a2 : AIAnswer) (g : G) :
  same_answer_inputs a a2 ->
  apply_ai_metrics ts a g = apply_ai_metrics ts a2 g.
Proof.
  intros (Hid & Htid & Hconf & Hcit).
  unfold apply_ai_metrics, calculate_ai_student_endorsements,
    should_instructor_endorse, quality_citations, set_endorsements.
  rewrite Hid, Htid, Hconf, Hcit. reflexivity.
Qed.

Lemma thread_written_same_inputs (lk : Lookups) (t t' : Thread) :
  thread_written lk t t' ->
  same_thread_inputs t t' /\ is_Some (thread_views t').
Proof.
  intros (g & g' & v & _ & ->). unfold same_thread_inputs. simpl.
  repeat split; eauto.
Qed.

Lemma ai_written_same_inputs (ts : list Thread) (a a' : AIAnswer) :
  ai_written ts a a' ->
  same_answer_inputs a a' /\
  is_Some (ai_studentEndorsements a') /\
  is_Some (ai_instructorEndorsements a') /\
  is_Some (ai_instructorEndorsed a') /\
  is_Some (ai_totalEndorsements a').
Proof.
  intros (g & g' & Hrun).
  apply apply_ai_metrics_inv in Hrun
    as (thread & views & s & endorse & total & g1 & _ & _ & _ & _ & _ & ->).
  unfold same_answer_inputs. simpl. repeat split; eauto.
Qed.

(** The first loop replaces nothing but [views]: the saved threads are the
    loaded ones, as many and in the same order, each with its id, course,
    status, creation time and AI flag kept and a view count set. *)
Theorem saved_threads_keep_inputs (ambient : G) (st : Store) (ts : list Thread) :
  saved (main ambient st) = true ->
  store_after (main ambient st) !! "threads.json" = Some (Threads ts) ->
  exists d, load st = inr d /\
    Forall2 (fun t t' => same_thread_inputs t t' /\ is_Some (thread_views t'))
            (threads d) ts.
Proof.
  intros Hsaved Hts.
  destruct (main_saved_threads ambient st ts Hsaved Hts) as (d & Hload & Hall).
  exists d. split; [exact Hload |].
  eapply Forall2_impl; [exact Hall |].
  intros t t'. apply thread_written_same_inputs.
Qed.

(** The second loop replaces nothing but the four derived fields: the saved
    AI answers are the loaded ones, as many and in the same order, each with
    its id, thread id, confidence and citations kept and all four derived
    fields set. *)
Theorem saved_answers_keep_inputs (ambient : G) (st : Store)
    (ais : list AIAnswer) :
  saved (main ambient st) = true ->
  store_after (main ambient st) !! "ai-answers.json" = Some (AIAnswers ais) ->
  exists d, load st = inr d /\
    Forall2 (fun a a' =>
               same_answer_inputs a a' /\
               is_Some (ai_studentEndorsements a') /\
               is_Some (ai_instructorEndorsements a') /\
               is_Some (ai_instructorEndorsed a') /\
               is_Some (ai_totalEndorsements a'))
            (ai_answers d) ais.
Proof.
  intros Hsaved Hais.
  destruct (main_saved_ai_answers ambient st ais Hsaved Hais)
    as (d & ts & Hload & _ & Hall).
  exists d. split; [exact Hload |].
  eapply Forall2_impl; [exact Hall |].
  intros a a'. apply ai_written_same_inputs.
Qed.

End LoopFacts.

Lemma saved_threads_keep_inputs_witness :
  exists d, load Sample.mocks = inr d /\
    Forall2 (fun t t' => same_thread_inputs t t' /\ is_Some (thread_views t'))
            (threads d)
            [set_views Sample.thread_old 175; set_views Sample.thread_new 8].
Proof.
  apply (saved_threads_keep_inputs (0 : Z) Sample.mocks); vm_compute; reflexivity.
Defined.

Lemma saved_answers_keep_inputs_witness :
  exists d, load Sample.mocks = inr d /\
    Forall2 (fun a a' =>
               same_answer_inputs a a' /\
               is_Some (ai_studentEndorsements a') /\
               is_Some (ai_instructorEndorsements a') /\
               is_Some (ai_instructorEndorsed a') /\
               is_Some (ai_totalEndorsements a'))
            (ai_answers d)
            [set_endorsements Sample.answer_weak 0 0 false 0;
             set_endorsements Sample.answer_good 7 1 true 10].
Proof.
  apply (saved_answers_keep_inputs (0 : Z) Sample.mocks); vm_compute; reflexivity.
Defined.

(** ** The run as a function of the loaded records *)

Lemma load_lookups (st : Store) (d : Loaded) :
  load st = inr d ->
  st !! "threads.json" = Some (Threads (threads d)) /\
  st !! "posts.json" = Some (Posts (posts d)) /\
  st !! "ai-answers.json" = Some (AIAnswers (ai_answers d)) /\
  st !! "courses.json" = Some (Courses (courses d)) /\
  st !! "users.json" = Some (Users (users d)).
Proof.
  unfold load, rbind.
  destruct (st !! "threads.json") as [[] |]; try discriminate.
  destruct (st !! "posts.json") as [[] |]; try discriminate.
  destruct (st !! "ai-answers.json") as [[] |]; try discriminate.
  destruct (st !! "courses.json") as [[] |]; try discriminate.
  destruct (st !! "users.json") as [[] |]; try discriminate.
  intros Heq. inversion Heq. simpl. auto.
Qed.

Lemma load_of_lookups (st : Store) (d : Loaded) :
  st !! "threads.json" = Some (Threads (threads d)) ->
  st !! "posts.json" = Some (Posts (posts d)) ->
  st !! "ai-answers.json" = Some (AIAnswers (ai_answers d)) ->
  st !! "courses.json" = Some (Courses (courses d)) ->
  st !! "users.json" = Some (Users (users d)) ->
  load st = inr d.
Proof.
  intros Ht Hp Ha Hc Hu. unfold load. rewrite Ht, Hp, Ha, Hc, Hu.
  destruct d. reflexivity.
Qed.

Lemma load_error_kind (st : Store) (e : exn) :
  load st = inl e -> e = LoadError.
Proof.
  unfold load, rbind.
  destruct (st !! "threads.json") as [[] |];
    try (intros Heq; inversion Heq; reflexivity).
  destruct (st !! "posts.json") as [[] |];
    try (intros Heq; inversion Heq; reflexivity).
  destruct (st !! "ai-answers.json") as [[] |];
    try (intros Heq; inversion Heq; reflexivity).
  destruct (st !! "courses.json") as [[] |];
    try (intros Heq; inversion Heq; reflexivity).
  destruct (st !! "users.json") as [[] |];
    try (intros Heq; inversion Heq; reflexivity).
Qed.

Lemma save_save (d : Loaded) (st : Store) : save d (save d st) = save d st.
Proof.
  apply map_eq. intros k.
  destruct (decide (k = "ai-answers.json")) as [-> | Ha];
    [rewrite !save_ai_answers; reflexivity |].
  destruct (decide (k = "posts.json")) as [-> | Hp];
    [rewrite !save_posts; reflexivity |].
  destruct (decide (k = "threads.json")) as [-> | Ht];
    [rewrite !save_threads; reflexivity |].
  rewrite !save_other by assumption. reflexivity.
Qed.

Section WholeRun.

Context {G : Type} `{RandomSource G}.

Lemma main_of_load (ambient : G) (st : Store) (d : Loaded) :
  load st = inr d ->
  main ambient st
  = match apply_metrics d (seed 42) with
    | inl e => mkOutcome st false (Some e)
    | inr (d', _) => mkOutcome (save d' st) true (report d')
    end.
Proof.
  intros Hload. unfold main. cbv zeta. unfold bind at 1, lift, ok.
  rewrite Hload. reflexivity.
Qed.

Lemma main_of_load_error (ambient : G) (st : Store) (e : exn) :
  load st = inl e -> main ambient st = mkOutcome st false (Some e).
Proof.
  intros Hload. unfold main. cbv zeta. unfold bind at 1, lift.
  rewrite Hload. reflexivity.
Qed.

Lemma apply_metrics_same_inputs (d d2 : Loaded) :
  same_inputs d d2 ->
  forall g : G, apply_metrics d g = apply_metrics d2 g.
Proof.
  intros (Hts & Hais & Hp & Hc & Hu) g. unfold apply_metrics.
  rewrite <- Hp, <- Hc, <- Hu. unfold bind at 1 3.
  rewrite (for_each_ext same_thread_inputs
             (apply_thread_metrics
                (build_lookups (courses d) (posts d) (ai_answers d) (users d)))
             (apply_thread_metrics
                (build_lookups (courses d) (posts d) (ai_answers d2) (users d)))
             (threads d) (threads d2) Hts).
  - destruct (for_each _ (threads d2) g) as [e | [ts g1]]; [reflexivity |].
    unfold bind.
    rewrite (for_each_ext same_answer_inputs (apply_ai_metrics ts)
               (apply_ai_metrics ts) (ai_answers d) (ai_answers d2) Hais).
    + reflexivity.
    + intros a a2 g0. apply apply_ai_metrics_ext.
  - intros t t2 g0. apply apply_thread_metrics_ext; reflexivity.
Qed.

(** Values already present in the derived fields are never read: two
    directories whose records agree except for [views] and the four
    endorsement fields end the same way, and when the files are saved, the
    same three files are saved. *)
Theorem stale_derived_fields_ignored (ambient ambient2 : G) (st st2 : Store)
    (d d2 : Loaded) :
  load st = inr d -> load st2 = inr d2 -> same_inputs d d2 ->
  saved (main ambient st) = saved (main ambient2 st2) /\
  raised (main ambient st) = raised (main ambient2 st2) /\
  (saved (main ambient st) = true ->
   forall path, In path output_files ->
     store_after (main ambient st) !! path
     = store_after (main ambient2 st2) !! path).
Proof.
  intros Hload Hload2 Hsame.
  rewrite (main_of_load ambient st d Hload),
    (main_of_load ambient2 st2 d2 Hload2),
    (apply_metrics_same_inputs d d2 Hsame).
  destruct (apply_metrics d2 (seed 42)) as [e | [d' g']]; simpl.
  - split; [reflexivity | split; [reflexivity | discriminate]].
  - split; [reflexivity | split; [reflexivity |]].
    intros _ path Hin. simpl in Hin.
    destruct Hin as [<- | [<- | [<- | []]]].
    + rewrite !save_threads. reflexivity.
    + rewrite !save_posts. reflexivity.
    + rewrite !save_ai_answers. reflexivity.
Qed.

Lemma apply_metrics_result_same_inputs (d d' : Loaded) (g g' : G) :
  apply_metrics d g = inr (d', g') -> same_inputs d d'.
Proof.
  intros Hrun.
  apply apply_metrics_inv in Hrun as (Hp & Hc & Hu & Hts & Hais).
  unfold same_inputs. rewrite Hp, Hc, Hu. repeat split.
  - eapply Forall2_impl; [exact Hts |].
    intros t t' Hw. apply (thread_written_same_inputs _ _ _ Hw).
  - eapply Forall2_impl; [exact Hais |].
    intros a a' Hw. apply (ai_written_same_inputs _ _ _ Hw).
Qed.

Lemma load_save (st : Store) (d d' : Loaded) :
  load st = inr d -> courses d' = courses d -> users d' = users d ->
  load (save d' st) = inr d'.
Proof.
  intros Hload Hc Hu.
  apply load_lookups in Hload as (_ & _ & _ & Hcs & Hus).
  apply load_of_lookups.
  - apply save_threads.
  - apply save_posts.
  - apply save_ai_answers.
  - rewrite save_other by discriminate. rewrite Hc. exact Hcs.
  - rewrite save_other by discriminate. rewrite Hu. exact Hus.
Qed.

(** Running the script again on the directory it has just saved changes
    nothing: the second run saves the same files and ends the same way. *)
Theorem rerun_changes_nothing (ambient ambient2 : G) (st : Store) :
  saved (main ambient st) = true ->
  main ambient2 (store_after (main ambient st)) = main ambient st.
Proof.
  intros Hsaved.
  apply main_saved_inv in Hsaved as (d & d' & g' & Hload & Hrun & _ & _).
  pose proof (apply_metrics_result_same_inputs d d' _ _ Hrun) as Hsame.
  pose proof (apply_metrics_inv d d' _ _ Hrun) as (_ & Hc & Hu & _).
  rewrite (main_of_load ambient st d Hload), Hrun. simpl.
  rewrite (main_of_load ambient2 (save d' st) d' (load_save st d d' Hload Hc Hu)).
  rewrite <- (apply_metrics_same_inputs d d' Hsame), Hrun.
  rewrite save_save. reflexivity.
Qed.

(** If one of the five files is missing, the run raises while loading,
    before any computation, and the directory stays as it was. *)
Theorem missing_file_aborts (ambient : G) (st : Store) (path : string) :
  In path input_files -> st !! path = None ->
  main ambient st = mkOutcome st false (Some LoadError).
Proof.
  intros Hin Hnone.
  destruct (load st) as [e | d] eqn:Hload.
  - rewrite (load_error_kind st e Hload) in Hload.
    apply main_of_load_error, Hload.
  - apply load_lookups in Hload as (Ht & Hp & Ha & Hc & Hu).
    simpl in Hin.
    destruct Hin as [<- | [<- | [<- | [<- | [<- | []]]]]]; congruence.
Qed.

(** The closing summary runs after the files are saved and fails on empty
    collections: with no thread it raises [ValueError], with threads but no
    post [ZeroDivisionError]; otherwise the run ends without exception.  A
    directory with neither threads nor AI answers does reach it. *)
Theorem summary_fails_on_empty_files (ambient : G) (st : Store) (d : Loaded) :
  load st = inr d ->
  (saved (main ambient st) = true ->
   raised (main ambient st)
   = match threads d, posts d with
     | [], _ => Some ValueError
     | _ :: _, [] => Some ZeroDivisionError
     | _ :: _, _ :: _ => None
     end) /\
  (threads d = [] -> ai_answers d = [] ->
   saved (main ambient st) = true /\
   store_after (main ambient st) = save d st).
Proof.
  intros Hload. rewrite (main_of_load ambient st d Hload). split.
  - destruct (apply_metrics d (seed 42)) as [e | [d' g']] eqn:Hrun; simpl;
      [discriminate |]. intros _.
    apply apply_metrics_inv in Hrun as (Hp & _ & _ & Hts & _).
    unfold report. rewrite Hp.
    destruct Hts; reflexivity.
  - intros Hts Hais. unfold apply_metrics. rewrite Hts, Hais. simpl.
    split; [reflexivity |]. f_equal. destruct d; simpl in *. congruence.
Qed.

(** Posts reach the computation only as the replies of existing threads:
    with any other posts collection that gives every thread the same
    replies, the two loops fail or succeed alike and compute the same
    threads and AI answers. *)
Theorem posts_matter_through_replies (d : Loaded) (ps : list Post) (g : G) :
  (forall t, In t (threads d) ->
     replies_of (thread_id t) ps = replies_of (thread_id t) (posts d)) ->
  apply_metrics (with_posts d ps) g
  = match apply_metrics d g with
    | inl e => inl e
    | inr (d', g') => inr (with_posts d' ps, g')
    end.
Proof.
  intros Hreplies. unfold apply_metrics, with_posts. simpl.
  unfold bind at 1 3.
  rewrite (for_each_ext_in
             (apply_thread_metrics
                (build_lookups (courses d) ps (ai_answers d) (users d)))
             (apply_thread_metrics
                (build_lookups (courses d) (posts d) (ai_answers d) (users d)))
             (threads d)).
  - destruct (for_each _ (threads d) g) as [e | [ts g1]]; [reflexivity |].
    unfold bind.
    destruct (for_each (apply_ai_metrics ts) (ai_answers d) g1)
      as [e | [ais g2]]; reflexivity.
  - intros t g0 Hin. apply apply_thread_metrics_ext; try reflexivity.
    + simpl. rewrite !replies_default. apply Hreplies, Hin.
    + unfold same_thread_inputs. auto.
Qed.

End WholeRun.

(** ** The factors of the view formula *)

Lemma holds_from_spec (P : Z -> bool) (n : nat) :
  forall d, holds_from P n d = true ->
  forall x, d <= x < d + Z.of_nat n -> P x = true.
Proof.
  induction n as [| n IH]; intros d Hall x Hx; [lia |].
  simpl in Hall. apply andb_true_iff in Hall as [Hd Hrest].
  destruct (Z.eq_dec x d) as [-> | Hne]; [exact Hd |].
  apply (IH (d + 1) Hrest). lia.
Qed.

Lemma holds_for_both_spec (P : bool -> bool) :
  holds_for_both P = true -> forall b, P b = true.
Proof.
  unfold holds_for_both. intros Hall b.
  apply andb_true_iff in Hall as [Ht Hf]. destruct b; assumption.
Qed.

Lemma float_eqb_eq (x y : pyfloat) : float_eqb x y = true -> x = y.
Proof.
  destruct x as [s | s | | s m e]; destruct y as [s' | s' | | s' m' e'];
    simpl; try discriminate; intros Heq.
  - apply Bool.eqb_prop in Heq. congruence.
  - apply Bool.eqb_prop in Heq. congruence.
  - reflexivity.
  - apply andb_true_iff in Heq as [Heq He].
    apply andb_true_iff in Heq as [Hs Hm].
    apply Bool.eqb_prop in Hs. apply Pos.eqb_eq in Hm. apply Z.eqb_eq in He.
    congruence.
Qed.

(** The course-size factor never decreases with the enrollment; it is 0.8 up
    to 34, 1.0 from 35 to 50 and 1.3 from 51 on. *)
Theorem course_size_factor_steps (a b : Z) :
  (a <= b ->
   fle (get_course_size_factor a) (get_course_size_factor b) = true) /\
  (get_course_size_factor a = f0_8 <-> a <= 34) /\
  (get_course_size_factor a = f1_0 <-> 35 <= a <= 50) /\
  (get_course_size_factor a = f1_3 <-> 51 <= a).
Proof.
  unfold get_course_size_factor.
  destruct (Z.ltb_spec a 35) as [Ha | Ha];
    [| destruct (Z.leb_spec a 50) as [Ha' | Ha']];
    (split;
     [intros Hab;
      destruct (Z.ltb_spec b 35); [| destruct (Z.leb_spec b 50)];
      try lia; vm_compute; reflexivity
     | split; [| split]; (split; intros Hx);
       try lia; try (exfalso; lia); try reflexivity;
       vm_compute in Hx; discriminate]).
Qed.

Lemma course_size_factor_steps_witness :
  fle (get_course_size_factor 35) (get_course_size_factor 51) = true /\
  get_course_size_factor 50 = f1_0 /\ get_course_size_factor 51 = f1_3.
Proof.
  destruct (course_size_factor_steps 35 51) as (Hmono & _).
  destruct (course_size_factor_steps 50 50) as (_ & _ & Hmid & _).
  destruct (course_size_factor_steps 51 51) as (_ & _ & _ & Hbig).
  split; [apply Hmono; lia | split; [apply Hmid; lia | apply Hbig; lia]].
Defined.

(** [get_base_views] always returns: a resolved thread draws from 20..35, an
    answered one from 15..25, and a thread of any other status, whatever the
    string, from 8..15 like an open one. *)
Theorem base_views_by_status {G : Type} `{RandomContract G}
    (status : string) (g : G) :
  exists n g',
    get_base_views status g = inr (n, g') /\
    (status = "resolved" -> 20 <= n <= 35) /\
    (status = "answered" -> 15 <= n <= 25) /\
    (status <> "resolved" -> status <> "answered" -> 8 <= n <= 15).
Proof.
  destruct (get_base_views_total status g) as (n & g' & Hrun).
  exists n, g'. split; [exact Hrun |].
  unfold get_base_views in Hrun.
  rewrite !string_eqb_decide in Hrun.
  destruct (bool_decide (status = "resolved")) eqn:Hres.
  - apply bool_decide_eq_true in Hres. apply randint_range in Hrun; [| lia].
    subst status. repeat split; try lia; intros; congruence.
  - apply bool_decide_eq_false in Hres.
    destruct (bool_decide (status = "answered")) eqn:Hans.
    + apply bool_decide_eq_true in Hans. apply randint_range in Hrun; [| lia].
      repeat split; try lia; intros; congruence.
    + apply bool_decide_eq_false in Hans. apply randint_range in Hrun; [| lia].
      repeat split; try lia; intros; congruence.
Qed.

Lemma base_views_by_status_witness :
  exists n g',
    get_base_views "closed" (0 : Z) = inr (n, g') /\ 8 <= n <= 15.
Proof.
  destruct (base_views_by_status "closed" (0 : Z))
    as (n & g' & Hrun & _ & _ & Hopen).
  exists n, g'. split; [exact Hrun |]. apply Hopen; discriminate.
Defined.

Lemma age_profile_checked :
  holds_from age_profile_ok (Z.to_nat (AGE_WINDOW + 1)) 0 = true.
Proof. vm_cast_no_check (eq_refl true). Qed.

Lemma age_factor_in_window (days : Z) :
  0 <= days <= AGE_WINDOW ->
  exists a,
    age_factor days = inr a /\
    fle f1_0 a = true /\
    (days < 21 -> flt a f2_5 = true) /\
    (21 <= days -> a = f2_5).
Proof.
  intros Hdays.
  pose proof (holds_from_spec _ _ _ age_profile_checked days) as Hok.
  unfold AGE_WINDOW in *. specialize (Hok ltac:(lia)).
  unfold age_profile_ok in Hok.
  destruct (age_factor days) as [e | a]; [discriminate |].
  apply andb_true_iff in Hok as [Hlow Hhigh].
  exists a. split; [reflexivity | split; [exact Hlow |]].
  destruct (Z.ltb_spec days 21); split; intros; try lia.
  - exact Hhigh.
  - apply float_eqb_eq, Hhigh.
Qed.

(** For a thread created up to a century before [NOW] the age factor is
    computed without exception; it is at least 1.0, stays below 2.5 during
    the first three weeks and is exactly 2.5 from day 21 on. *)
Theorem age_factor_profile (days : Z) :
  0 <= days <= AGE_WINDOW ->
  exists a,
    age_factor days = inr a /\
    fle f1_0 a = true /\
    (days < 21 -> flt a f2_5 = true) /\
    (21 <= days -> a = f2_5).
Proof. exact (age_factor_in_window days). Qed.

Lemma age_factor_profile_witness :
  exists a, age_factor 14 = inr a /\ flt a f2_5 = true.
Proof.
  destruct (age_factor_profile 14) as (a & Ha & _ & Hlt & _);
    [unfold AGE_WINDOW; lia |].
  exists a. split; [exact Ha | apply Hlt; lia].
Defined.

Lemma views_checked : holds_from views_ok_at_day 22 0 = true.
Proof. vm_cast_no_check (eq_refl true). Qed.

Lemma age_factor_at_cap : age_factor 21 = inr f2_5.
Proof. vm_compute. reflexivity. Qed.

Lemma views_ok_at_day_inv (d : Z) :
  views_ok_at_day d = true ->
  exists age, age_factor d = inr age /\ views_ok_at_age age = true.
Proof.
  unfold views_ok_at_day.
  destruct (age_factor d) as [e | age]; [discriminate | eauto].
Qed.

Lemma views_ok_at_any_day (days : Z) :
  0 <= days <= AGE_WINDOW ->
  exists age, age_factor days = inr age /\ views_ok_at_age age = true.
Proof.
  intros Hdays. destruct (Z.lt_ge_cases days 21) as [Hlt | Hge].
  - apply views_ok_at_day_inv.
    apply (holds_from_spec views_ok_at_day 22 0 views_checked). simpl. lia.
  - destruct (age_factor_in_window days Hdays) as (a & Ha & _ & _ & Hcap).
    rewrite (Hcap Hge) in Ha.
    destruct (views_ok_at_day_inv 21) as (age & Hage & Hok).
    + apply (holds_from_spec views_ok_at_day 22 0 views_checked). simpl. lia.
    + rewrite age_factor_at_cap in Hage. inversion Hage; subst age. eauto.
Qed.

Lemma course_size_factor_cases (enrollment : Z) :
  get_course_size_factor enrollment = f0_8 \/
  get_course_size_factor enrollment = f1_0 \/
  get_course_size_factor enrollment = f1_3.
Proof.
  unfold get_course_size_factor.
  destruct (enrollment <? 35); [| destruct (enrollment <=? 50)]; auto.
Qed.

Lemma calculate_thread_views_in_window {G : Type} `{RandomContract G}
    (lk : Lookups) (thread : Thread) (course : Course) (g : G) :
  courses_by_id lk !! thread_courseId thread = Some course ->
  0 <= get_days_since_creation (thread_createdAt thread) <= AGE_WINDOW ->
  exists v g',
    calculate_thread_views lk thread g = inr (v, g') /\ 6 <= v <= 200.
Proof.
  intros Hcourse Hdays.
  destruct (get_base_views_total (thread_status thread) g) as (base & g1 & Hbase).
  rewrite (calculate_thread_views_formula lk thread course g g1 base
             Hcourse Hbase).
  apply get_base_views_range in Hbase.
  destruct (views_ok_at_any_day _ Hdays) as (age & Hage & Hok).
  unfold views_formula.
  change (spec_age_factor (get_days_since_creation (thread_createdAt thread)))
    with (age_factor (get_days_since_creation (thread_createdAt thread))).
  rewrite Hage. simpl.
  rewrite quality_factor_flags, spec_course_size_factor_eq.
  unfold views_ok_at_age in Hok.
  match goal with
  | |- context [quality_of_flags ?b1 ?b2 ?b3 ?b4 ?b5] =>
      pose proof (holds_for_both_spec _ Hok b1) as H1; cbv beta in H1;
      pose proof (holds_for_both_spec _ H1 b2) as H2; cbv beta in H2;
      pose proof (holds_for_both_spec _ H2 b3) as H3; cbv beta in H3;
      pose proof (holds_for_both_spec _ H3 b4) as H4; cbv beta in H4;
      pose proof (holds_for_both_spec _ H4 b5) as H5; cbv beta in H5;
      clear Hok H1 H2 H3 H4
  end.
  unfold views_ok_at_quality in H5.
  pose proof (holds_from_spec _ _ _ H5 base ltac:(lia)) as Hx.
  cbv beta zeta in Hx. clear H5.
  destruct (int_mul base age) as [e | x]; [discriminate |]. simpl.
  apply andb_true_iff in Hx as [Hx Hlarge].
  apply andb_true_iff in Hx as [Hsmall Hmedium].
  match goal with
  | |- context [fmul (fmul x ?q) ?c] =>
      assert (Hprod : product_ok (fmul x q) c = true)
        by (destruct (course_size_factor_cases (course_enrollmentCount course))
              as [-> | [-> | ->]]; assumption)
  end.
  unfold product_ok in Hprod.
  destruct (int_of_float _) as [e | n]; [discriminate |].
  apply Z.leb_le in Hprod.
  exists (Z.min n 200), g1. split; [reflexivity | lia].
Qed.

(** For a thread whose course exists and that was created up to a century
    before [NOW], [calculate_thread_views] raises nothing and returns a
    count from 6 to 200. *)
Theorem thread_views_of_past_thread {G : Type} `{RandomContract G}
    (lk : Lookups) (thread : Thread) (course : Course) (g : G) :
  courses_by_id lk !! thread_courseId thread = Some course ->
  0 <= get_days_since_creation (thread_createdAt thread) <= AGE_WINDOW ->
  exists v g',
    calculate_thread_views lk thread g = inr (v, g') /\ 6 <= v <= 200.
Proof. exact (calculate_thread_views_in_window lk thread course g). Qed.

Lemma thread_views_of_past_thread_witness :
  exists v g',
    calculate_thread_views Sample.lookups Sample.thread_new (42 : Z)
      = inr (v, g') /\ 6 <= v <= 200.
Proof.
  apply (thread_views_of_past_thread Sample.lookups Sample.thread_new
           Sample.course_small (42 : Z)).
  - vm_compute. reflexivity.
  - vm_compute. split; discriminate.
Defined.

(** ** The first loop on past threads *)

Lemma for_each_total {G A B : Type} (f : A -> M G B) (P : B -> Prop)
    (l : list A) :
  (forall x, In x l -> forall g, exists y g', f x g = inr (y, g') /\ P y) ->
  forall g : G, exists l' g', for_each f l g = inr (l', g') /\ Forall P l'.
Proof.
  induction l as [| x l IH]; intros Hf g; simpl.
  - exists [], g. split; [reflexivity | constructor].
  - destruct (Hf x (or_introl eq_refl) g) as (y & g1 & Hx & Hy).
    destruct (IH (fun z Hz => Hf z (or_intror Hz)) g1) as (l' & g2 & Hl & Hall).
    exists (y :: l'), g2. unfold bind. rewrite Hx, Hl.
    split; [reflexivity | constructor; assumption].
Qed.

(** When every thread names an existing course and was created up to a
    century before [NOW], the loop over the threads raises nothing and gives
    each of them a view count from 6 to 200. *)
Theorem first_loop_completes {G : Type} `{RandomContract G}
    (lk : Lookups) (ts : list Thread) (g : G) :
  (forall t, In t ts ->
     is_Some (courses_by_id lk !! thread_courseId t) /\
     0 <= get_days_since_creation (thread_createdAt t) <= AGE_WINDOW) ->
  exists ts' g',
    for_each (apply_thread_metrics lk) ts g = inr (ts', g') /\
    Forall (fun t' => exists v, thread_views t' = Some v /\ 6 <= v <= 200) ts'.
Proof.
  intros Hok. apply for_each_total.
  intros t Hin g0. destruct (Hok t Hin) as [[course Hcourse] Hdays].
  destruct (calculate_thread_views_in_window lk t course g0 Hcourse Hdays)
    as (v & g' & Hrun & Hv).
  exists (set_views t v), g'. unfold apply_thread_metrics, bind.
  rewrite Hrun. split; [reflexivity |]. exists v. split; [reflexivity | exact Hv].
Qed.

Lemma first_loop_completes_witness :
  exists ts' g',
    for_each (apply_thread_metrics Sample.lookups)
             [Sample.thread_old; Sample.thread_new] (42 : Z) = inr (ts', g') /\
    Forall (fun t' => exists v, thread_views t' = Some v /\ 6 <= v <= 200) ts'.
Proof.
  apply (first_loop_completes Sample.lookups
           [Sample.thread_old; Sample.thread_new] (42 : Z)).
  intros t [<- | [<- | []]]; (split; [vm_compute; eauto | vm_compute; split; discriminate]).
Defined.

(** ** Worked examples for the properties of the whole run *)

Lemma stale_derived_fields_ignored_witness :
  raised (main (0 : Z) Sample.mocks) = raised (main (7 : Z) Edge.mocks_stale) /\
  store_after (main (0 : Z) Sample.mocks) !! "threads.json"
  = store_after (main (7 : Z) Edge.mocks_stale) !! "threads.json".
Proof.
  assert (Hload : load Sample.mocks = inr Edge.loaded)
    by (vm_compute; reflexivity).
  assert (Hload2 : load Edge.mocks_stale = inr Edge.loaded_stale)
    by (vm_compute; reflexivity).
  assert (Hsame : same_inputs Edge.loaded Edge.loaded_stale).
  { unfold same_inputs, same_thread_inputs, same_answer_inputs. simpl.
    split; [| split; [| split; [| split]]]; try reflexivity;
      repeat (constructor; [tauto |]); constructor. }
  destruct (stale_derived_fields_ignored (0 : Z) 7 Sample.mocks Edge.mocks_stale
              Edge.loaded Edge.loaded_stale Hload Hload2 Hsame)
    as (_ & Hraised & Hfiles).
  split; [exact Hraised |].
  apply Hfiles; [vm_compute; reflexivity | simpl; tauto].
Defined.

Lemma rerun_changes_nothing_witness :
  main (7 : Z) (store_after (main (0 : Z) Sample.mocks)) = main (0 : Z) Sample.mocks.
Proof.
  apply (rerun_changes_nothing (0 : Z) 7 Sample.mocks). vm_compute. reflexivity.
Defined.

Lemma missing_file_aborts_witness :
  main (0 : Z) Edge.mocks_no_users
  = mkOutcome Edge.mocks_no_users false (Some LoadError).
Proof.
  apply (missing_file_aborts (0 : Z) Edge.mocks_no_users "users.json").
  - simpl. tauto.
  - vm_compute. reflexivity.
Defined.

Lemma summary_fails_on_empty_files_witness :
  raised (main (0 : Z) Edge.mocks_no_posts) = Some ZeroDivisionError /\
  saved (main (0 : Z) Edge.mocks_empty) = true.
Proof.
  assert (Hload : load Edge.mocks_no_posts = inr Edge.loaded_no_posts)
    by (vm_compute; reflexivity).
  assert (Hempty : load Edge.mocks_empty = inr (mkLoaded [] [] [] [] []))
    by (vm_compute; reflexivity).
  assert (Hsaved : saved (main (0 : Z) Edge.mocks_no_posts) = true)
    by (vm_compute; reflexivity).
  destruct (summary_fails_on_empty_files (0 : Z) Edge.mocks_no_posts
              Edge.loaded_no_posts Hload) as [Hraised _].
  destruct (summary_fails_on_empty_files (0 : Z) Edge.mocks_empty
              (mkLoaded [] [] [] [] []) Hempty) as [_ Hruns].
  split; [exact (Hraised Hsaved) | apply Hruns; reflexivity].
Defined.

Lemma posts_matter_through_replies_witness :
  apply_metrics (with_posts Edge.loaded [Sample.reply; Sample.stray_post]) (42 : Z)
  = match apply_metrics Edge.loaded (42 : Z) with
    | inl e => inl e
    | inr (d', g') =>
        inr (with_posts d' [Sample.reply; Sample.stray_post], g')
    end.
Proof.
  apply (posts_matter_through_replies Edge.loaded
           [Sample.reply; Sample.stray_post] (42 : Z)).
  intros t [<- | [<- | []]]; vm_compute; reflexivity.
Defined.

(** ** Monotonicity *)

(** A thread created later is never older: the age in days does not
    increase with the creation time. *)
Theorem later_thread_is_not_older (c1 c2 : datetime) :
  timestamp_us c1 <= timestamp_us c2 ->
  get_days_since_creation c2 <= get_days_since_creation c1.
Proof.
  intros Hle. rewrite !get_days_floored. unfold days_floored, US_PER_DAY.
  apply Z.div_le_mono; lia.
Qed.

Lemma later_thread_is_not_older_witness :
  get_days_since_creation (thread_createdAt Sample.thread_new)
  <= get_days_since_creation (thread_createdAt Sample.thread_old).
Proof.
  apply later_thread_is_not_older. vm_compute. discriminate.
Defined.

Lemma age_monotone_checked : holds_from age_monotone_from 22 0 = true.
Proof. vm_cast_no_check (eq_refl true). Qed.

Lemma age_le_ok_inv (d1 d2 : Z) :
  age_le_ok d1 d2 = true ->
  exists a1 a2,
    age_factor d1 = inr a1 /\ age_factor d2 = inr a2 /\ fle a1 a2 = true.
Proof.
  unfold age_le_ok.
  destruct (age_factor d1) as [e | a1]; [discriminate |].
  destruct (age_factor d2) as [e | a2]; [discriminate | eauto].
Qed.

Lemma age_le_before_cap (d1 d2 : Z) :
  0 <= d1 <= d2 -> d2 <= 21 ->
  exists a1 a2,
    age_factor d1 = inr a1 /\ age_factor d2 = inr a2 /\ fle a1 a2 = true.
Proof.
  intros Hd Hcap. apply age_le_ok_inv.
  pose proof (holds_from_spec age_monotone_from 22 0 age_monotone_checked d1)
    as Hrow.
  simpl in Hrow. specialize (Hrow ltac:(lia)).
  unfold age_monotone_from in Hrow.
  apply (holds_from_spec _ _ _ Hrow). lia.
Qed.

(** Within a century before [NOW], an older thread never has a smaller age
    factor. *)
Theorem age_factor_monotone (d1 d2 : Z) :
  0 <= d1 <= d2 -> d2 <= AGE_WINDOW ->
  exists a1 a2,
    age_factor d1 = inr a1 /\ age_factor d2 = inr a2 /\ fle a1 a2 = true.
Proof.
  intros Hd Hwin. destruct (Z.le_gt_cases d2 21) as [Hle | Hgt].
  - apply age_le_before_cap; assumption.
  - destruct (age_factor_in_window d2 ltac:(lia)) as (a2 & Ha2 & _ & _ & Hcap2).
    rewrite (Hcap2 ltac:(lia)) in Ha2.
    destruct (Z.le_gt_cases d1 21) as [Hle1 | Hgt1].
    + destruct (age_le_before_cap d1 21 ltac:(lia) ltac:(lia))
        as (a1 & a21 & Ha1 & Ha21 & Hfle).
      rewrite age_factor_at_cap in Ha21. inversion Ha21; subst a21.
      exists a1, f2_5. auto.
    + destruct (age_factor_in_window d1 ltac:(lia)) as (a1 & Ha1 & _ & _ & Hcap1).
      rewrite (Hcap1 ltac:(lia)) in Ha1.
      exists f2_5, f2_5. repeat split; try assumption.
Qed.

Lemma age_factor_monotone_witness :
  exists a1 a2,
    age_factor 3 = inr a1 /\ age_factor 400 = inr a2 /\ fle a1 a2 = true.
Proof.
  apply age_factor_monotone; unfold AGE_WINDOW; lia.
Defined.

Lemma quality_monotone_checked (b1 b2 b3 b4 b5 b2' b3' b4' : bool) :
  quality_monotone_ok b1 b2 b3 b4 b5 b2' b3' b4' = true.
Proof.
  destruct b1, b2, b3, b4, b5, b2', b3', b4'; vm_compute; reflexivity.
Qed.

Lemma bool_decide_implb (P Q : Prop) `{Decision P} `{Decision Q} :
  (P -> Q) -> implb_flag (bool_decide P) (bool_decide Q) = true.
Proof.
  intros Himp. unfold implb_flag.
  destruct (bool_decide P) eqn:HP; [| reflexivity].
  apply bool_decide_eq_true in HP.
  rewrite (bool_decide_eq_true_2 Q (Himp HP)). reflexivity.
Qed.

(** One more reply never lowers the quality factor of a thread. *)
Theorem reply_never_lowers_quality (lk : Lookups) (thread : Thread)
    (replies : list Post) (p : Post) (ai_answer : option AIAnswer) :
  fle (calculate_quality_factor lk thread replies ai_answer)
      (calculate_quality_factor lk thread (replies ++ [p]) ai_answer) = true.
Proof.
  rewrite !quality_factor_flags.
  match goal with
  | |- fle (quality_of_flags ?b1 ?b2 ?b3 ?b4 ?b5)
           (quality_of_flags _ ?b2' ?b3' ?b4' _) = true =>
      pose proof (quality_monotone_checked b1 b2 b3 b4 b5 b2' b3' b4') as Hok
  end.
  unfold quality_monotone_ok in Hok.
  rewrite !bool_decide_implb in Hok.
  - exact Hok.
  - intros Hex. apply Exists_app. left. exact Hex.
  - intros Hex. apply Exists_app. left. exact Hex.
  - rewrite length_app. simpl. lia.
Qed.

(** A reply whose author is not in the users file raises nothing and does
    not count as an instructor's: unknown authors never earn the bonus. *)
Theorem unknown_authors_are_not_instructors (users : gmap string User)
    (replies : list Post) :
  (forall p, In p replies -> users !! post_authorId p = None) ->
  has_instructor_reply users replies = false.
Proof.
  intros Hunknown. unfold has_instructor_reply.
  induction replies as [| p l IH]; [reflexivity |].
  simpl. rewrite (Hunknown p (or_introl eq_refl)). simpl.
  apply IH. intros q Hq. apply Hunknown. right. exact Hq.
Qed.

Lemma unknown_authors_are_not_instructors_witness :
  has_instructor_reply (users_by_id Sample.lookups)
    [mkPost "post-9" "thread-1" "user-gone" (Some true)] = false.
Proof.
  apply unknown_authors_are_not_instructors.
  intros p [<- | []]. vm_compute. reflexivity.
Defined.
